(** * Content moderation: classification-to-action decision engine

    A shallow embedding of [ml_classifier.py] (spam heuristic, verdict
    engine, classifier front end) and of the dispatch path of [main.py]
    (business logic, storage, request handler), with the properties the
    specification states about them.

    Conventions of the embedding.
    - Python floats are modelled by exact rationals [Q]; every literal of
      the source is a decimal and is written as such.  Numeric results
      are compared with [==]; a value the code passes through untouched
      is compared with [=].  The rounding of float arithmetic and the
      floats that are not numbers have no counterpart in [Q].
    - A Python [dict] with string keys that the code indexes by computed
      keys ([self.thresholds]) is a [gmap string Q]; dicts with a fixed
      set of keys are records.
    - A raised Python exception is the [Raise] case of [res]; code that
      talks to the database runs in the state-and-exception monad [M]. *)

From Stdlib Require Import QArith Qabs Qminmax Lqa Lia List Ascii String.
From stdpp Require Import base option list gmap strings pretty.

Open Scope Q_scope.

(** * Part I: the program *)

(** ** Python values *)

Module Py.

(** [x >= y], [x < y] and [x > y] on numbers. *)
Definition ge (x y : Q) : bool := Qle_bool y x.

Definition lt (x y : Q) : bool := negb (Qle_bool y x).

Definition gt (x y : Q) : bool := lt y x.

(** An [int] used where a float is expected. *)
Definition float (n : nat) : Q := inject_Z (Z.of_nat n).

(** Exceptions the modelled code can see; [str] is Python's [str(e)]. *)
Inductive exn : Type :=
| KeyError (key : string)
| ModelError (msg : string)
| StorageError (msg : string)
| HTTPException (status_code : nat) (detail : string).

Definition str (e : exn) : string :=
  match e with
  | KeyError key => "'" +:+ key +:+ "'"
  | ModelError msg => msg
  | StorageError msg => msg
  | HTTPException _ detail => detail
  end.

(** The outcome of a call: a value or a raised exception. *)
Inductive res (A : Type) : Type :=
| Ok (a : A)
| Raise (e : exn).
#[global] Arguments Ok {A} a.
#[global] Arguments Raise {A} e.

Definition bind {A B} (m : res A) (k : A -> res B) : res B :=
  match m with
  | Ok a => k a
  | Raise e => Raise e
  end.

(** [d[k]]: a missing key raises [KeyError]. *)
Definition getitem (d : gmap string Q) (k : string) : res Q :=
  match d !! k with
  | Some v => Ok v
  | None => Raise (KeyError k)
  end.

(** [d.get(k, default)]. *)
Definition get (d : gmap string Q) (k : string) (default : Q) : Q :=
  match d !! k with
  | Some v => v
  | None => default
  end.

(** Characters are code points below 256; the character classes are
    Python's on that range. *)
Definition code (c : ascii) : nat := nat_of_ascii c.

Definition between (lo hi n : nat) : bool := (lo <=? n)%nat && (n <=? hi)%nat.

(** [c.isupper()]. *)
Definition isupper (c : ascii) : bool :=
  between 65 90 (code c) || between 192 214 (code c) || between 216 222 (code c).

(** [c.isspace()], also the class [\s] of [re]. *)
Definition isspace (c : ascii) : bool :=
  between 9 13 (code c) || between 28 32 (code c)
  || (code c =? 133)%nat || (code c =? 160)%nat.

(** [c.lower()]. *)
Definition lower_char (c : ascii) : ascii :=
  if isupper c then ascii_of_nat (code c + 32) else c.

(** [s.lower()]. *)
Fixpoint lower (s : string) : string :=
  match s with
  | EmptyString => EmptyString
  | String c s' => String (lower_char c) (lower s')
  end.

(** [len(s)]. *)
Definition len (s : string) : nat := String.length s.

(** [s[:n]]. *)
Definition prefix (n : nat) (s : string) : string := substring 0 n s.

(** [sum(1 for c in s if f c)]. *)
Fixpoint count (f : ascii -> bool) (s : string) : nat :=
  match s with
  | EmptyString => 0
  | String c s' => if f c then S (count f s') else count f s'
  end.

(** [s.split()]: the maximal runs of characters that are not white space.
    [word] is the run being read, in reverse. *)
Fixpoint split_from (word : list ascii) (s : string) : list string :=
  let flush rest :=
    match word with
    | [] => rest
    | _ :: _ => string_of_list_ascii (rev word) :: rest
    end in
  match s with
  | EmptyString => flush []
  | String c s' =>
      if isspace c then flush (split_from [] s') else split_from (c :: word) s'
  end.

Definition split (s : string) : list string := split_from [] s.

End Py.

Import Py.

#[global] Instance res_ret : MRet res := @Ok.
#[global] Instance res_bind : MBind res := fun A B k m => Py.bind m k.

(** ** Regular expressions

    The patterns of the spam scorer, embedded as backtracking matchers in
    continuation-passing style: [p s k] holds when [p] matches a prefix
    of [s] whose remainder [k] accepts. *)

Module Re.

Definition pattern : Type := list ascii -> (list ascii -> bool) -> bool.

(** One character of a class. *)
Definition class (f : ascii -> bool) : pattern :=
  fun s k =>
    match s with
    | c :: s' => if f c then k s' else false
    | [] => false
    end.

(** [.] matches anything but a newline; [[^\s]] anything but white space. *)
Definition dot : ascii -> bool := fun c => negb (code c =? 10)%nat.

Definition non_space : ascii -> bool := fun c => negb (isspace c).

(** A literal character, and the same under the flag [(?i)]. *)
Definition chr (a : ascii) : ascii -> bool := fun c => Ascii.eqb c a.

Definition chr_i (a : ascii) : ascii -> bool :=
  fun c => Ascii.eqb (lower_char c) (lower_char a).

Definition seq (p q : pattern) : pattern := fun s k => p s (fun s' => q s' k).

Definition empty : pattern := fun s k => k s.

(** [p?]. *)
Definition opt (p : pattern) : pattern :=
  fun s k => if p s k then true else k s.

(** [f*] and [f+] for a character class [f]. *)
Fixpoint star (f : ascii -> bool) (s : list ascii) (k : list ascii -> bool)
  : bool :=
  match s with
  | c :: s' => if (if f c then star f s' k else false) then true else k s
  | [] => k []
  end.

Definition plus (f : ascii -> bool) : pattern := seq (class f) (star f).

(** A literal string, read with [lit] ([chr] or [chr_i]). *)
Fixpoint literal (lit : ascii -> ascii -> bool) (t : string) : pattern :=
  match t with
  | EmptyString => empty
  | String a t' => seq (class (lit a)) (literal lit t')
  end.

(** [(.)\1{n,}]: a character other than a newline, then at least [n]
    more copies of it. *)
Fixpoint copies (n : nat) (f : ascii -> bool) : pattern :=
  match n with
  | O => star f
  | S n' => seq (class f) (copies n' f)
  end.

Definition repeated (n : nat) : pattern :=
  fun s k =>
    match s with
    | c :: s' => if dot c then copies n (chr c) s' k else false
    | [] => false
    end.

(** [re.search(p, s)]: a match starting anywhere in [s]. *)
Fixpoint search_from (p : pattern) (s : list ascii) : bool :=
  if p s (fun _ => true) then true else
  match s with
  | [] => false
  | _ :: s' => search_from p s'
  end.

Definition search (p : pattern) (s : string) : bool :=
  search_from p (list_ascii_of_string s).

End Re.

(** ** The classifier ([ml_classifier.py]) *)

(** One element of a Hugging Face pipeline's output,
    [{'label': ..., 'score': ...}]. *)
Record prediction : Type := { label : string; score : Q }.

(** The dict [_classify_sync] returns.  The keys [content_length] and
    [word_count] exist on the normal path only, [error] on the other. *)
Module Result.
Record t : Type := {
  classification : string;
  confidence : Q;
  toxicity_score : Q;
  spam_score : Q;
  sentiment : string;
  sentiment_score : Q;
  threshold : Q;
  model_version : string;
  content_length : option nat;
  word_count : option nat;
  error : option string
}.
End Result.

(** The attributes of a [ContentClassifier].  The two pipelines are the
    pretrained models, outside the repository: any function from text to
    a prediction or a raised exception. *)
Record ContentClassifier : Type := {
  model_version : string;
  toxicity_classifier : string -> res prediction;
  sentiment_classifier : string -> res prediction;
  spam_patterns : list Re.pattern;
  thresholds : gmap string Q
}.

(** [https?://[^\s]+] *)
Definition url : Re.pattern :=
  Re.seq (Re.literal Re.chr "http")
    (Re.seq (Re.opt (Re.class (Re.chr "s")))
       (Re.seq (Re.literal Re.chr "://") (Re.plus Re.non_space))).

(** [__init__] *)
Definition init (toxicity_model sentiment_model : string -> res prediction)
  : ContentClassifier :=
  {| model_version := "1.0.0";
     toxicity_classifier := toxicity_model;
     sentiment_classifier := sentiment_model;
     spam_patterns :=
       [ Re.literal Re.chr_i "click here";
         Re.literal Re.chr_i "buy now";
         Re.literal Re.chr_i "limited time";
         Re.literal Re.chr_i "act now";
         Re.literal Re.chr_i "free money";
         Re.literal Re.chr_i "winner";
         Re.seq (Re.literal Re.chr_i "congratulations")
           (Re.seq (Re.star Re.dot) (Re.literal Re.chr_i "won"));
         Re.seq url (Re.seq (Re.star Re.dot)
           (Re.seq url (Re.seq (Re.star Re.dot) url)));
         Re.repeated 4 ];
     thresholds :=
       <["toxicity_high" := 0.8]>
       (<["toxicity_medium" := 0.6]>
       (<["spam_high" := 0.7]>
       (<["confidence_low" := 0.6]> ∅))) |}.

(** [update_thresholds]: [dict.update], the new entries win. *)
Definition update_thresholds (self : ContentClassifier)
    (new_thresholds : gmap string Q) : ContentClassifier :=
  {| model_version := model_version self;
     toxicity_classifier := toxicity_classifier self;
     sentiment_classifier := sentiment_classifier self;
     spam_patterns := spam_patterns self;
     thresholds := new_thresholds ∪ thresholds self |}.

(** [_detect_toxicity] *)
Definition _detect_toxicity (self : ContentClassifier) (content : string)
  : prediction :=
  match toxicity_classifier self (prefix 512 content) with
  | Ok result =>
      let score :=
        if bool_decide (lower (label result) ∈ ["toxic"; "negative"])
        then score result
        else 1.0 - score result in
      {| label := label result; score := Qmin (Qmax score 0.0) 1.0 |}
  | Raise e => {| label := "unknown"; score := 0.0 |}
  end.

(** [_detect_spam] *)
Definition _detect_spam (self : ContentClassifier) (content : string) : Q :=
  let score := 0.0 in
  let pattern_matches :=
    fold_left
      (fun pattern_matches pattern =>
         if Re.search pattern content
         then (pattern_matches + 1)%nat else pattern_matches)
      (spam_patterns self) 0%nat in
  let score :=
    if (0 <? pattern_matches)%nat
    then score + Qmin (float pattern_matches * 0.15) 0.5 else score in
  let score :=
    if (10 <? len content)%nat then
      let caps_ratio := float (count isupper content) / float (len content) in
      if gt caps_ratio 0.5 then score + 0.2 else score
    else score in
  let punct_count :=
    count (fun c => bool_decide (c ∈ list_ascii_of_string "!?.")) content in
  let score := if (5 <? punct_count)%nat then score + 0.15 else score in
  let words := split content in
  let score :=
    if (3 <? length words)%nat then
      let unique_ratio :=
        float (size (list_to_set words : gset string)) / float (length words) in
      if lt unique_ratio 0.3 then score + 0.2 else score
    else score in
  Qmin score 1.0.

(** The steps of [_detect_spam] one by one: the number of patterns that
    match, and what each of the four checks adds to the score. *)
Definition pattern_matches (self : ContentClassifier) (content : string) : nat :=
  fold_left
    (fun pattern_matches pattern =>
       if Re.search pattern content
       then (pattern_matches + 1)%nat else pattern_matches)
    (spam_patterns self) 0%nat.

Definition pattern_score (self : ContentClassifier) (content : string) : Q :=
  if (0 <? pattern_matches self content)%nat
  then Qmin (float (pattern_matches self content) * 0.15) 0.5 else 0.

Definition caps_score (content : string) : Q :=
  if (10 <? len content)%nat then
    if gt (float (count isupper content) / float (len content)) 0.5
    then 0.2 else 0
  else 0.

Definition punct_score (content : string) : Q :=
  if (5 <? count (fun c => bool_decide (c ∈ list_ascii_of_string "!?.")) content)%nat
  then 0.15 else 0.

Definition repetition_score (content : string) : Q :=
  if (3 <? length (split content))%nat then
    if lt (float (size (list_to_set (split content) : gset string))
           / float (length (split content))) 0.3
    then 0.2 else 0
  else 0.

(** [_analyze_sentiment] *)
Definition _analyze_sentiment (self : ContentClassifier) (content : string)
  : prediction :=
  match sentiment_classifier self (prefix 512 content) with
  | Ok result => {| label := lower (label result); score := score result |}
  | Raise e => {| label := "neutral"; score := 0.5 |}
  end.

(** [_determine_classification].  The threshold look-ups happen in the
    order of the [if] chain, each only when the chain reaches it. *)
Definition _determine_classification (self : ContentClassifier)
    (toxicity_score spam_score : Q) (sentiment_result : prediction)
  : res (string * Q) :=
  let confidence :=
    1.0 - Qmax
      (if lt toxicity_score 0.6 then Qabs (toxicity_score - 0.5) else 0)
      (if lt spam_score 0.6 then Qabs (spam_score - 0.5) else 0) in
  toxicity_high ← getitem (thresholds self) "toxicity_high";
  if ge toxicity_score toxicity_high then Ok ("toxic", toxicity_score) else
  spam_high ← getitem (thresholds self) "spam_high";
  if ge spam_score spam_high then Ok ("spam", spam_score) else
  toxicity_medium ← getitem (thresholds self) "toxicity_medium";
  if ge toxicity_score toxicity_medium
  then Ok ("needs_review", Qmax toxicity_score 0.6) else
  if ge spam_score 0.5 then Ok ("needs_review", Qmax spam_score 0.6) else
  confidence_low ← getitem (thresholds self) "confidence_low";
  if lt confidence confidence_low then Ok ("needs_review", confidence) else
  Ok ("acceptable", confidence).

(** [_classify_sync]: the body of the [try], then the [except]. *)
Definition _classify_sync (self : ContentClassifier) (content : string)
  : Result.t :=
  let attempt : res Result.t :=
    let toxicity_result := _detect_toxicity self content in
    let toxicity_score := score toxicity_result in
    let spam_score := _detect_spam self content in
    let sentiment_result := _analyze_sentiment self content in
    '(classification, confidence) ←
      _determine_classification self toxicity_score spam_score sentiment_result;
    Ok {| Result.classification := classification;
          Result.confidence := confidence;
          Result.toxicity_score := toxicity_score;
          Result.spam_score := spam_score;
          Result.sentiment := label sentiment_result;
          Result.sentiment_score := score sentiment_result;
          Result.threshold :=
            get (thresholds self) (classification +:+ "_high") 0.5;
          Result.model_version := model_version self;
          Result.content_length := Some (len content);
          Result.word_count := Some (length (split content));
          Result.error := None |} in
  match attempt with
  | Ok result => result
  | Raise e =>
      {| Result.classification := "needs_review";
         Result.confidence := 0.0;
         Result.toxicity_score := 0.0;
         Result.spam_score := 0.0;
         Result.sentiment := "neutral";
         Result.sentiment_score := 0.5;
         Result.threshold := 0.0;
         Result.model_version := model_version self;
         Result.content_length := None;
         Result.word_count := None;
         Result.error := Some (str e) |}
  end.

(** [classify] hands [_classify_sync] to the executor and awaits it. *)
Definition classify (self : ContentClassifier) (content : string) : Result.t :=
  _classify_sync self content.

(** ** The request handler ([main.py])

    Identifiers from [uuid.uuid4()] and readings of the clock come from
    outside: the content id is an argument of the handler, and the
    generated row ids, timestamps and the processing time are left out of
    the rows and of the response. *)

(** The request body, after validation. *)
Module ContentSubmission.
Record t : Type := {
  content : string;
  author_id : string;
  platform : string;
  metadata : gmap string string
}.
End ContentSubmission.

(** The dict [apply_business_logic] returns; the key [notification_sent]
    is set by the four branches only. *)
Module Action.
Record t : Type := {
  action : string;
  notification_sent : option bool
}.
End Action.

(** The response model. *)
Module ClassificationResult.
Record details_t : Type := {
  model_version : string;
  threshold_used : Q;
  notification_sent : bool
}.
Record t : Type := {
  content_id : string;
  classification : string;
  confidence : Q;
  toxicity_score : Q;
  spam_score : Q;
  sentiment : string;
  action_taken : string;
  details : details_t
}.
End ClassificationResult.

(** The tables the handler writes. *)
Module Db.

Module Content.
Record row : Type := {
  content_id : string;
  author_id : string;
  content_text : string;
  platform : string;
  classification : string;
  confidence : Q;
  toxicity_score : Q;
  spam_score : Q;
  sentiment : string;
  action_taken : string;
  metadata : gmap string string
}.
End Content.

Module AuditLog.
Inductive event_data : Type :=
| content_classified (classification : Result.t) (action : Action.t)
| processing_error (error : string) (submission : ContentSubmission.t).
Record row : Type := {
  content_id : string;
  event : event_data
}.
End AuditLog.

Module ModerationQueue.
Record row : Type := {
  content_id : string;
  author_id : string;
  content_text : string;
  reason : string;
  priority : Z;
  status : string
}.
End ModerationQueue.

Module UserNotifications.
Record row : Type := {
  author_id : string;
  notification_type : string;
  message : string;
  status : string
}.
End UserNotifications.

Module ModelMetrics.
Record row : Type := {
  content_id : string;
  confidence_score : Q;
  classification : string
}.
End ModelMetrics.

(** [user_violations] maps (author_id, violation_type) to its count. *)
Record t : Type := {
  content : list Content.row;
  audit_log : list AuditLog.row;
  moderation_queue : list ModerationQueue.row;
  user_notifications : list UserNotifications.row;
  user_violations : gmap (string * string) nat;
  model_metrics : list ModelMetrics.row
}.

Definition empty : t :=
  {| content := []; audit_log := []; moderation_queue := [];
     user_notifications := []; user_violations := ∅; model_metrics := [] |}.

(** [INSERT INTO content]. *)
Definition insert_content (r : Content.row) (d : t) : t :=
  {| content := content d ++ [r];
     audit_log := audit_log d;
     moderation_queue := moderation_queue d;
     user_notifications := user_notifications d;
     user_violations := user_violations d;
     model_metrics := model_metrics d |}.

(** [INSERT INTO audit_log]. *)
Definition insert_audit_log (r : AuditLog.row) (d : t) : t :=
  {| content := content d;
     audit_log := audit_log d ++ [r];
     moderation_queue := moderation_queue d;
     user_notifications := user_notifications d;
     user_violations := user_violations d;
     model_metrics := model_metrics d |}.

(** [INSERT INTO moderation_queue]. *)
Definition insert_moderation_queue (r : ModerationQueue.row) (d : t) : t :=
  {| content := content d;
     audit_log := audit_log d;
     moderation_queue := moderation_queue d ++ [r];
     user_notifications := user_notifications d;
     user_violations := user_violations d;
     model_metrics := model_metrics d |}.

(** [INSERT INTO user_notifications]. *)
Definition insert_user_notifications (r : UserNotifications.row) (d : t) : t :=
  {| content := content d;
     audit_log := audit_log d;
     moderation_queue := moderation_queue d;
     user_notifications := user_notifications d ++ [r];
     user_violations := user_violations d;
     model_metrics := model_metrics d |}.

(** [INSERT INTO user_violations ... VALUES (..., 1, ...) ON CONFLICT
    (author_id, violation_type) DO UPDATE SET count = count + 1]. *)
Definition upsert_user_violations (author_id violation_type : string) (d : t)
  : t :=
  {| content := content d;
     audit_log := audit_log d;
     moderation_queue := moderation_queue d;
     user_notifications := user_notifications d;
     user_violations :=
       match user_violations d !! (author_id, violation_type) with
       | None => <[(author_id, violation_type) := 1%nat]> (user_violations d)
       | Some count =>
           <[(author_id, violation_type) := (count + 1)%nat]> (user_violations d)
       end;
     model_metrics := model_metrics d |}.

(** [INSERT INTO model_metrics]. *)
Definition insert_model_metrics (r : ModelMetrics.row) (d : t) : t :=
  {| content := content d;
     audit_log := audit_log d;
     moderation_queue := moderation_queue d;
     user_notifications := user_notifications d;
     user_violations := user_violations d;
     model_metrics := model_metrics d ++ [r] |}.

End Db.

(** The SQL statements of the handler, one per [conn.execute]. *)
Inductive statement : Type :=
| insert_content
| insert_audit_log
| insert_moderation_queue
| insert_user_notifications
| upsert_user_violations
| insert_model_metrics
| insert_error_audit_log.

(** A task handed to [BackgroundTasks.add_task]. *)
Inductive task : Type :=
| post_to_social_media (content_id content : string).

(** What a request runs against: the database, the tasks scheduled so
    far, and for every statement whether the storage layer rejects it
    (with the message of the exception it raises). *)
Record World : Type := {
  db : Db.t;
  background_tasks : list task;
  failing : statement -> option string
}.

(** Code with effects: state passing with exceptions.  The state an
    exception leaves behind is kept. *)
Definition M (A : Type) : Type := World -> res A * World.

#[global] Instance M_ret : MRet M := fun A a w => (Ok a, w).

#[global] Instance M_bind : MBind M := fun A B k m w =>
  match m w with
  | (Ok a, w') => k a w'
  | (Raise e, w') => (Raise e, w')
  end.

Definition raise {A} (e : exn) : M A := fun w => (Raise e, w).

(** [try: body except Exception as e: handler e]. *)
Definition try_except {A} (body : M A) (handler : exn -> M A) : M A :=
  fun w =>
    match body w with
    | (Ok a, w') => (Ok a, w')
    | (Raise e, w') => handler e w'
    end.

(** The world after a write to the database. *)
Definition with_db (write : Db.t -> Db.t) (w : World) : World :=
  {| db := write (db w);
     background_tasks := background_tasks w;
     failing := failing w |}.

(** [await conn.execute(...)]: the write happens unless storage fails. *)
Definition execute (st : statement) (write : Db.t -> Db.t) : M unit :=
  fun w =>
    match failing w st with
    | Some msg => (Raise (StorageError msg), w)
    | None => (Ok (), with_db write w)
    end.

(** [async with conn.transaction()]: an exception rolls the writes back. *)
Definition transaction {A} (body : M A) : M A :=
  fun w =>
    match body w with
    | (Ok a, w') => (Ok a, w')
    | (Raise e, _) => (Raise e, w)
    end.

(** [background_tasks.add_task(...)]. *)
Definition add_task (t : task) : M unit :=
  fun w =>
    (Ok (), {| db := db w;
               background_tasks := background_tasks w ++ [t];
               failing := failing w |}).

(** [calculate_priority] *)
Definition calculate_priority (classification : Result.t) : Z :=
  let toxicity := Result.toxicity_score classification in
  let confidence := Result.confidence classification in
  if gt toxicity 0.7 || lt confidence 0.6 then 5%Z
  else if gt toxicity 0.5 || lt confidence 0.7 then 4%Z
  else if gt toxicity 0.3 then 3%Z
  else 2%Z.

(** [add_to_moderation_queue] *)
Definition add_to_moderation_queue (content_id : string)
    (submission : ContentSubmission.t) (classification : Result.t) : M unit :=
  execute insert_moderation_queue
    (Db.insert_moderation_queue
       {| Db.ModerationQueue.content_id := content_id;
          Db.ModerationQueue.author_id := ContentSubmission.author_id submission;
          Db.ModerationQueue.content_text := ContentSubmission.content submission;
          Db.ModerationQueue.reason := "needs_human_review";
          Db.ModerationQueue.priority := calculate_priority classification;
          Db.ModerationQueue.status := "pending" |}).

(** [notify_user] *)
Definition notify_user (author_id reason message : string) : M unit :=
  execute insert_user_notifications
    (Db.insert_user_notifications
       {| Db.UserNotifications.author_id := author_id;
          Db.UserNotifications.notification_type := reason;
          Db.UserNotifications.message := message;
          Db.UserNotifications.status := "sent" |}).

(** [increment_violation_counter] *)
Definition increment_violation_counter (author_id violation_type : string)
  : M unit :=
  execute upsert_user_violations
    (Db.upsert_user_violations author_id violation_type).

(** [apply_business_logic] *)
Definition apply_business_logic (content_id : string)
    (submission : ContentSubmission.t) (classification : Result.t)
  : M Action.t :=
  let category := Result.classification classification in
  if String.eqb category "acceptable" then
    mret {| Action.action := "approved_and_stored";
            Action.notification_sent := Some false |}
  else if String.eqb category "needs_review" then
    _ ← add_to_moderation_queue content_id submission classification;
    mret {| Action.action := "queued_for_review";
            Action.notification_sent := Some false |}
  else if String.eqb category "toxic" then
    _ ← notify_user (ContentSubmission.author_id submission) "toxic"
          "Your content was flagged as toxic and has been rejected.";
    _ ← increment_violation_counter (ContentSubmission.author_id submission) "toxic";
    mret {| Action.action := "rejected_toxic";
            Action.notification_sent := Some true |}
  else if String.eqb category "spam" then
    _ ← notify_user (ContentSubmission.author_id submission) "spam"
          "Your content was identified as spam and has been rejected.";
    _ ← increment_violation_counter (ContentSubmission.author_id submission) "spam";
    mret {| Action.action := "rejected_spam";
            Action.notification_sent := Some true |}
  else
    mret {| Action.action := category; Action.notification_sent := None |}.

(** [store_content]: both rows in one transaction. *)
Definition store_content (content_id : string)
    (submission : ContentSubmission.t) (classification : Result.t)
    (action : Action.t) : M unit :=
  transaction (
    _ ← execute insert_content
          (Db.insert_content
             {| Db.Content.content_id := content_id;
                Db.Content.author_id := ContentSubmission.author_id submission;
                Db.Content.content_text := ContentSubmission.content submission;
                Db.Content.platform := ContentSubmission.platform submission;
                Db.Content.classification := Result.classification classification;
                Db.Content.confidence := Result.confidence classification;
                Db.Content.toxicity_score := Result.toxicity_score classification;
                Db.Content.spam_score := Result.spam_score classification;
                Db.Content.sentiment := Result.sentiment classification;
                Db.Content.action_taken := Action.action action;
                Db.Content.metadata := ContentSubmission.metadata submission |});
    execute insert_audit_log
      (Db.insert_audit_log
         {| Db.AuditLog.content_id := content_id;
            Db.AuditLog.event :=
              Db.AuditLog.content_classified classification action |})).

(** [log_classification_metrics] *)
Definition log_classification_metrics (content_id : string) (confidence : Q)
    (classification : string) : M unit :=
  execute insert_model_metrics
    (Db.insert_model_metrics
       {| Db.ModelMetrics.content_id := content_id;
          Db.ModelMetrics.confidence_score := confidence;
          Db.ModelMetrics.classification := classification |}).

(** [log_error]: a failure to write the entry is swallowed. *)
Definition log_error (content_id error : string)
    (submission_data : ContentSubmission.t) : M unit :=
  try_except
    (execute insert_error_audit_log
       (Db.insert_audit_log
          {| Db.AuditLog.content_id := content_id;
             Db.AuditLog.event :=
               Db.AuditLog.processing_error error submission_data |}))
    (fun e => mret ()).

(** [submit_content]: the [try] with its five steps and the response,
    then the [except]. *)
Definition submit_content (classifier : ContentClassifier)
    (content_id : string) (submission : ContentSubmission.t)
  : M ClassificationResult.t :=
  try_except
    (let classification_result :=
       classify classifier (ContentSubmission.content submission) in
     action_result ←
       apply_business_logic content_id submission classification_result;
     _ ← store_content content_id submission classification_result action_result;
     _ ← (if String.eqb (Result.classification classification_result) "acceptable"
          then add_task (post_to_social_media content_id
                           (ContentSubmission.content submission))
          else mret ());
     _ ← log_classification_metrics content_id
           (Result.confidence classification_result)
           (Result.classification classification_result);
     mret {| ClassificationResult.content_id := content_id;
             ClassificationResult.classification :=
               Result.classification classification_result;
             ClassificationResult.confidence :=
               Result.confidence classification_result;
             ClassificationResult.toxicity_score :=
               Result.toxicity_score classification_result;
             ClassificationResult.spam_score :=
               Result.spam_score classification_result;
             ClassificationResult.sentiment :=
               Result.sentiment classification_result;
             ClassificationResult.action_taken := Action.action action_result;
             ClassificationResult.details :=
               {| ClassificationResult.model_version := model_version classifier;
                  ClassificationResult.threshold_used :=
                    Result.threshold classification_result;
                  ClassificationResult.notification_sent :=
                    default false (Action.notification_sent action_result) |} |})
    (fun e =>
       _ ← log_error content_id (str e) submission;
       raise (HTTPException 500 ("Failed to process content: " +:+ str e))).

(** The statements a request runs, by the classification of its
    content: those of [apply_business_logic], then the two of
    [store_content] and the one of [log_classification_metrics]. *)
Definition statements_of (category : string) : list statement :=
  (if String.eqb category "needs_review" then [insert_moderation_queue]
   else if String.eqb category "toxic" || String.eqb category "spam"
        then [insert_user_notifications; upsert_user_violations]
   else [])
  ++ [insert_content; insert_audit_log; insert_model_metrics].

(** The classification, action and notification flag of a response. *)
Definition row_of (resp : ClassificationResult.t) : string * string * bool :=
  (ClassificationResult.classification resp,
   ClassificationResult.action_taken resp,
   ClassificationResult.notification_sent
     (ClassificationResult.details resp)).

(** ** The decision rules as the specification words them

    Section 4.2 of the specification: six ordered rules over five
    thresholds, [spam_medium] among them.  Only used to compare the code
    with. *)

Module Spec.

Definition confidence (toxicity_score spam_score : Q) : Q :=
  let d_tox :=
    if lt toxicity_score 0.6 then Qabs (toxicity_score - 0.5) else 0 in
  let d_spam :=
    if lt spam_score 0.6 then Qabs (spam_score - 0.5) else 0 in
  1.0 - Qmax d_tox d_spam.

Definition classify
    (toxicity_high toxicity_medium spam_high spam_medium confidence_low : Q)
    (toxicity_score spam_score : Q) : string * Q :=
  if ge toxicity_score toxicity_high then ("toxic", toxicity_score)
  else if ge spam_score spam_high then ("spam", spam_score)
  else if ge toxicity_score toxicity_medium
       then ("needs_review", Qmax toxicity_score 0.6)
  else if ge spam_score spam_medium
       then ("needs_review", Qmax spam_score 0.6)
  else if lt (confidence toxicity_score spam_score) confidence_low
       then ("needs_review", confidence toxicity_score spam_score)
  else ("acceptable", confidence toxicity_score spam_score).

End Spec.

(** ** Stand-ins for the pretrained models, for the examples *)

(** A model that is down. *)
Definition no_model : string -> res prediction :=
  fun _ => Raise (ModelError "model unavailable").

(** A model that answers every text alike. *)
Definition constant_model (l : string) (s : Q) : string -> res prediction :=
  fun _ => Ok {| label := l; score := s |}.

Definition neutral : prediction := {| label := "neutral"; score := 0.5 |}.

(** A submission, an empty database where every statement succeeds, and
    one where the notification table cannot be written. *)
Definition hello : ContentSubmission.t :=
  {| ContentSubmission.content := "hello";
     ContentSubmission.author_id := "u1";
     ContentSubmission.platform := "web";
     ContentSubmission.metadata := ∅ |}.

Definition healthy : World :=
  {| db := Db.empty; background_tasks := []; failing := fun _ => None |}.

Definition notifications_down : World :=
  {| db := Db.empty;
     background_tasks := [];
     failing := fun st =>
       match st with
       | insert_user_notifications => Some "connection lost"
       | _ => None
       end |}.

(** A result of the normal path that carries the two scores the priority
    is computed from. *)
Definition scored (toxicity confidence : Q) : Result.t :=
  {| Result.classification := "needs_review";
     Result.confidence := confidence;
     Result.toxicity_score := toxicity;
     Result.spam_score := 0.0;
     Result.sentiment := "neutral";
     Result.sentiment_score := 0.5;
     Result.threshold := 0.5;
     Result.model_version := "1.0.0";
     Result.content_length := Some 0%nat;
     Result.word_count := Some 0%nat;
     Result.error := None |}.

(** ** Configurations

    A classifier is [configured] when the four thresholds the rules read
    are present; [tuned] is the classifier after a series of calls of
    [update_thresholds]. *)
Definition configured (self : ContentClassifier) : Prop :=
  forall k,
    k ∈ ["toxicity_high"; "toxicity_medium"; "spam_high"; "confidence_low"] ->
    is_Some (thresholds self !! k).

Definition tuned (self : ContentClassifier) (updates : list (gmap string Q))
  : ContentClassifier :=
  fold_left update_thresholds updates self.

(** ** Matching inside a longer text

    A continuation [k'] takes over from [k] behind the extra text [q]
    when it accepts every remainder of [k] followed by [q]; a pattern is
    [stable] when a match survives such an extension of the input. *)
Definition takes_over (k k' : list ascii -> bool) (q : list ascii) : Prop :=
  forall r, k r = true -> k' (r ++ q) = true.

Definition stable (p : Re.pattern) : Prop :=
  forall s k k' q, takes_over k k' q -> p s k = true -> p (s ++ q) k' = true.

(** ** What the handler leaves behind

    [extends_db d d'] says that [d'] keeps everything [d] holds: every
    table of [d'] starts with the rows of [d], and no violation count is
    lower or gone.  [keeps m] says that every run of [m], successful or
    not, ends in such a world, with the tasks scheduled before still
    scheduled. *)
Definition extends_db (d d' : Db.t) : Prop :=
  (exists l, Db.content d' = Db.content d ++ l) /\
  (exists l, Db.audit_log d' = Db.audit_log d ++ l) /\
  (exists l, Db.moderation_queue d' = Db.moderation_queue d ++ l) /\
  (exists l, Db.user_notifications d' = Db.user_notifications d ++ l) /\
  (exists l, Db.model_metrics d' = Db.model_metrics d ++ l) /\
  (forall key n,
     Db.user_violations d !! key = Some n ->
     exists m, Db.user_violations d' !! key = Some m /\ (n <= m)%nat).

Definition grows (w w' : World) : Prop :=
  extends_db (db w) (db w') /\
  (exists l, background_tasks w' = background_tasks w ++ l) /\
  failing w' = failing w.

Definition keeps {A} (m : M A) : Prop := forall w, grows w (snd (m w)).

(** [m] run [n] times in a row. *)
Fixpoint times (n : nat) (m : M unit) : M unit :=
  match n with
  | O => mret ()
  | S n' => _ ← m; times n' m
  end.

(** ** Request validation ([ContentSubmission])

    The field constraints ([min_length], [max_length]) are checked on the
    value as it was sent, and the validator of the field runs on a value
    that passed them.  A request that fails is answered with status 422
    ([None]). *)
Module Validation.

(** [s.isspace()]: at least one character, and all of them white space. *)
Fixpoint all_space (l : list ascii) : bool :=
  match l with
  | [] => true
  | c :: l' => if isspace c then all_space l' else false
  end.

Definition str_isspace (s : string) : bool :=
  match s with
  | EmptyString => false
  | String _ _ => all_space (list_ascii_of_string s)
  end.

(** [s.strip()]: without the white space at its two ends. *)
Fixpoint lstrip (l : list ascii) : list ascii :=
  match l with
  | [] => []
  | c :: l' => if isspace c then lstrip l' else l
  end.

Definition rstrip (l : list ascii) : list ascii := rev (lstrip (rev l)).

Definition strip (s : string) : string :=
  string_of_list_ascii (rstrip (lstrip (list_ascii_of_string s))).

(** The validator [sanitize_content]. *)
Definition sanitize_content (v : string) : string := strip v.

(** The validator [validate_author]; [None] for the [ValueError]. *)
Definition validate_author (v : string) : option string :=
  if (len v =? 0)%nat || str_isspace v then None else Some (strip v).

(** [min_length <= len(v) <= max_length]. *)
Definition length_within (min_length max_length : nat) (v : string) : bool :=
  (min_length <=? len v)%nat && (len v <=? max_length)%nat.

(** [ContentSubmission(content=..., author_id=..., platform=...,
    metadata=...)]. *)
Definition ContentSubmission (content author_id platform : string)
    (metadata : gmap string string) : option ContentSubmission.t :=
  if negb (length_within 1 5000 content) then None else
  if negb (length_within 1 100 author_id) then None else
  if negb (length_within 0 50 platform) then None else
  match validate_author author_id with
  | None => None
  | Some author =>
      Some {| ContentSubmission.content := sanitize_content content;
              ContentSubmission.author_id := author;
              ContentSubmission.platform := platform;
              ContentSubmission.metadata := metadata |}
  end.

(** Has neither a leading nor a trailing white space character. *)
Definition trimmed (s : string) : Prop :=
  (forall c l, list_ascii_of_string s = c :: l -> isspace c = false) /\
  (forall c, last (list_ascii_of_string s) = Some c -> isspace c = false).

End Validation.

(** ** Publishing ([social_media.py])

    The network, the clock and the OAuth signature of the Twitter client
    come from outside and are taken as they come ([Net]): any answer to a
    request, a response or an exception.  A result dict has different
    keys on different paths and is a [gmap]; the dict of results by
    platform keeps the order in which its keys were set, which
    [list(results.keys())] shows, and is a list of pairs. *)
Module Social.

(** The values of a result dict. *)
Inductive value : Type :=
| PyNone
| PyBool (b : bool)
| PyStr (s : string).

(** An exception: an [aiohttp.ClientError], or any other. *)
Inductive failure : Type :=
| ClientError (msg : string)
| OtherError (msg : string).

Definition str (f : failure) : string :=
  match f with
  | ClientError msg => msg
  | OtherError msg => msg
  end.

Inductive attempt (A : Type) : Type :=
| Done (a : A)
| Failed (f : failure).
#[global] Arguments Done {A} a.
#[global] Arguments Failed {A} f.

(** A response: its status, the id its JSON body carries where the code
    looks for it ([await response.json()], then [data.get('id')] or
    [data.get('data', {}).get('id')]), and [await response.text()]. *)
Record response : Type := {
  status : nat;
  id : attempt (option string);
  text : attempt string
}.

(** A [session.post(url, params=..., json=..., headers=...)]. *)
Record request : Type := {
  url : string;
  params : gmap string value;
  json : gmap string value;
  headers : gmap string string
}.

Record Net : Type := {
  post : request -> attempt response;
  _get_twitter_oauth_headers : string -> string -> attempt (gmap string string);
  utcnow : string
}.

Definition of_option (o : option string) : value :=
  match o with
  | Some s => PyStr s
  | None => PyNone
  end.

(** [bool(x)] for an optional string. *)
Definition truthy (o : option string) : bool :=
  match o with
  | Some s => negb (String.eqb s "")
  | None => false
  end.

Record SocialMediaPoster : Type := {
  facebook_token : option string;
  twitter_credentials : list (string * option string);
  facebook_enabled : bool;
  twitter_enabled : bool
}.

(** [__init__] *)
Definition init (facebook_token twitter_api_key twitter_api_secret
    twitter_access_token twitter_access_secret : option string)
  : SocialMediaPoster :=
  let twitter_credentials :=
    [ ("api_key", twitter_api_key);
      ("api_secret", twitter_api_secret);
      ("access_token", twitter_access_token);
      ("access_secret", twitter_access_secret) ] in
  {| facebook_token := facebook_token;
     twitter_credentials := twitter_credentials;
     facebook_enabled := truthy facebook_token;
     twitter_enabled := forallb truthy (map snd twitter_credentials) |}.

(** The dict of an [except] clause of a platform method. *)
Definition failed (platform : string) (f : failure) : gmap string value :=
  {[ "success" := PyBool false;
     "platform" := PyStr platform;
     "post_id" := PyNone;
     "message" :=
       PyStr (match f with
              | ClientError _ => "Network error: " +:+ str f
              | OtherError _ => "Unexpected error: " +:+ str f
              end);
     "posted_at" := PyNone ]}.

(** The two dicts after a response, by its status. *)
Definition answered (net : Net) (platform : string) (expected : nat)
    (r : response) : gmap string value :=
  if (status r =? expected)%nat then
    match id r with
    | Done post_id =>
        {[ "success" := PyBool true;
           "platform" := PyStr platform;
           "post_id" := of_option post_id;
           "message" := PyStr "Posted successfully";
           "posted_at" := PyStr (utcnow net) ]}
    | Failed f => failed platform f
    end
  else
    match text r with
    | Done error_text =>
        {[ "success" := PyBool false;
           "platform" := PyStr platform;
           "post_id" := PyNone;
           "message" := PyStr ("API error: " +:+ pretty (status r));
           "error" := PyStr error_text;
           "posted_at" := PyNone ]}
    | Failed f => failed platform f
    end.

(** [_post_to_facebook]: the result, and the requests it made. *)
Definition _post_to_facebook (net : Net) (self : SocialMediaPoster)
    (content : string) : attempt (gmap string value) * list request :=
  let request :=
    {| url := "https://graph.facebook.com/v18.0/me/feed";
       params := {[ "message" := PyStr content;
                    "access_token" := of_option (facebook_token self) ]};
       json := ∅;
       headers := ∅ |} in
  (Done match post net request with
        | Done r => answered net "facebook" 200 r
        | Failed f => failed "facebook" f
        end,
   [request]).

(** [_post_to_twitter] *)
Definition _post_to_twitter (net : Net) (self : SocialMediaPoster)
    (content : string) : attempt (gmap string value) * list request :=
  let content :=
    if (280 <? len content)%nat then prefix 277 content +:+ "..."
    else content in
  let url := "https://api.twitter.com/2/tweets" in
  match _get_twitter_oauth_headers net url "POST" with
  | Failed f => (Done (failed "twitter" f), [])
  | Done headers =>
      let headers := <["Content-Type" := "application/json"]> headers in
      let request :=
        {| url := url;
           params := ∅;
           json := {[ "text" := PyStr content ]};
           headers := headers |} in
      (Done match post net request with
            | Done r => answered net "twitter" 201 r
            | Failed f => failed "twitter" f
            end,
       [request])
  end.

(** [results[platform] = entry] on a dict in insertion order. *)
Fixpoint setitem {V} (key : string) (entry : V) (results : list (string * V))
  : list (string * V) :=
  match results with
  | [] => [(key, entry)]
  | (k, v) :: rest =>
      if String.eqb k key then (k, entry) :: rest
      else (k, v) :: setitem key entry rest
  end.

(** [results[platform]] *)
Fixpoint getitem {V} (key : string) (results : list (string * V)) : option V :=
  match results with
  | [] => None
  | (k, v) :: rest => if String.eqb k key then Some v else getitem key rest
  end.

Definition not_configured (name : string) : gmap string value :=
  {[ "success" := PyBool false;
     "message" := PyStr (name +:+ " not configured");
     "posted_at" := PyNone ]}.

(** [post_content], over the two platform methods of the object it is
    called on (a subclass overrides them) and whatever they leave behind
    ([L]: requests made, or posts recorded).  [asyncio.gather] with
    [return_exceptions=True] hands back the results in the order of the
    tasks, an exception in the place of a result. *)
Definition post_content_with {L}
    (post_to_facebook post_to_twitter :
       string -> attempt (gmap string value) * list L)
    (self : SocialMediaPoster) (content : string)
  : list (string * gmap string value) * list L :=
  let results := [] in
  let tasks := [] in
  let '(tasks, results) :=
    if facebook_enabled self
    then (tasks ++ [post_to_facebook content], results)
    else (tasks, setitem "facebook" (not_configured "Facebook") results) in
  let '(tasks, results) :=
    if twitter_enabled self
    then (tasks ++ [post_to_twitter content], results)
    else (tasks, setitem "twitter" (not_configured "Twitter") results) in
  match tasks with
  | [] => (results, [])
  | _ :: _ =>
      let platform_results := map fst tasks in
      let platform_names := [] in
      let platform_names :=
        if facebook_enabled self
        then platform_names ++ ["facebook"] else platform_names in
      let platform_names :=
        if twitter_enabled self
        then platform_names ++ ["twitter"] else platform_names in
      (fold_left
         (fun results '(platform, result) =>
            match result with
            | Failed f =>
                setitem platform
                  {[ "success" := PyBool false;
                     "message" := PyStr (str f);
                     "posted_at" := PyNone ]} results
            | Done result => setitem platform result results
            end)
         (combine platform_names platform_results) results,
       concat (map snd tasks))
  end.

(** [SocialMediaPoster.post_content] *)
Definition post_content (net : Net) (self : SocialMediaPoster)
    (content : string) : list (string * gmap string value) * list request :=
  post_content_with (_post_to_facebook net self) (_post_to_twitter net self)
    self content.

(** [MockSocialMediaPoster]: both platforms enabled, no credentials, and
    the two methods overridden.  The ids come from [hash] and the clock
    ([fresh]); what is left behind are the entries appended to
    [posted_content]. *)
Module Mock.

Definition init : SocialMediaPoster :=
  {| facebook_token := facebook_token (init None None None None None);
     twitter_credentials :=
       twitter_credentials (init None None None None None);
     facebook_enabled := true;
     twitter_enabled := true |}.

(** A reading of the clock, [datetime.utcnow()]: [str(d)] puts a space
    between the date and the time, [d.isoformat()] a 'T'. *)
Record datetime : Type := {
  date : string;
  time : string
}.

Definition str_datetime (d : datetime) : string := date d +:+ " " +:+ time d.

Definition isoformat (d : datetime) : string := date d +:+ "T" +:+ time d.

(** Each call reads the clock twice, for the id and then for [posted_at];
    [hash] is Python's hash of a string, fixed within one process, and an
    f-string renders the integer in decimal. *)
Definition _post_to_facebook (hash : string -> Z)
    (utcnow : datetime * datetime) (content : string)
  : attempt (gmap string value) * list (string * string * string) :=
  let post_id :=
    "fb_" +:+ pretty (hash (content +:+ str_datetime (fst utcnow))) in
  (Done {[ "success" := PyBool true;
           "platform" := PyStr "facebook";
           "post_id" := PyStr post_id;
           "message" := PyStr "Posted successfully (mock)";
           "posted_at" := PyStr (isoformat (snd utcnow)) ]},
   [("facebook", content, post_id)]).

Definition _post_to_twitter (hash : string -> Z)
    (utcnow : datetime * datetime) (content : string)
  : attempt (gmap string value) * list (string * string * string) :=
  let content :=
    if (280 <? len content)%nat then prefix 277 content +:+ "..."
    else content in
  let tweet_id :=
    "tw_" +:+ pretty (hash (content +:+ str_datetime (fst utcnow))) in
  (Done {[ "success" := PyBool true;
           "platform" := PyStr "twitter";
           "post_id" := PyStr tweet_id;
           "message" := PyStr "Posted successfully (mock)";
           "posted_at" := PyStr (isoformat (snd utcnow)) ]},
   [("twitter", content, tweet_id)]).

(** The two calls read the clock on their own: [facebook_clock] and
    [twitter_clock] are the readings of the one and of the other. *)
Definition post_content (hash : string -> Z)
    (facebook_clock twitter_clock : datetime * datetime) (content : string) :=
  post_content_with (_post_to_facebook hash facebook_clock)
    (_post_to_twitter hash twitter_clock) init content.

End Mock.

(** A row of the table [social_media_posts]. *)
Record row : Type := {
  content_id : string;
  platforms : list string;
  results : list (string * gmap string value)
}.

(** [post_to_social_media] of [main.py]: the table afterwards and the
    requests made.  An exception of the insert is logged and dropped. *)
Definition post_to_social_media (net : Net) (insert_fails : option string)
    (content_id content : string) (social_poster : SocialMediaPoster)
    (social_media_posts : list row) : list row * list request :=
  let '(results, requests) := post_content net social_poster content in
  match insert_fails with
  | None =>
      (social_media_posts
       ++ [ {| content_id := content_id;
               platforms := map fst results;
               results := results |} ],
       requests)
  | Some _ => (social_media_posts, requests)
  end.

End Social.

(** The entry [post_content] stores for a platform that it called: the
    result of the call, or the dict it makes of an exception. *)
Definition settled (result : Social.attempt (gmap string Social.value))
  : gmap string Social.value :=
  match result with
  | Social.Done result => result
  | Social.Failed f =>
      {[ "success" := Social.PyBool false;
         "message" := Social.PyStr (Social.str f);
         "posted_at" := Social.PyNone ]}
  end.

(** The text [_post_to_twitter] sends for a content. *)
Definition tweet (content : string) : string :=
  if (280 <? len content)%nat then prefix 277 content +:+ "..." else content.

(** * Part II: properties *)

(** ** Comparisons *)

Lemma ge_true x y : ge x y = true <-> y <= x.
Proof. unfold ge. apply Qle_bool_iff. Qed.

Lemma ge_false x y : ge x y = false <-> x < y.
Proof.
  unfold ge. rewrite <- not_true_iff_false, Qle_bool_iff.
  split; [apply Qnot_le_lt | apply Qlt_not_le].
Qed.

Lemma lt_true x y : lt x y = true <-> x < y.
Proof. unfold lt. rewrite negb_true_iff. apply ge_false. Qed.

Lemma lt_false x y : lt x y = false <-> y <= x.
Proof. unfold lt. rewrite negb_false_iff. apply Qle_bool_iff. Qed.

Lemma gt_true x y : gt x y = true <-> y < x.
Proof. apply lt_true. Qed.

Lemma gt_false x y : gt x y = false <-> x <= y.
Proof. apply lt_false. Qed.

(** Case analysis on every comparison of the goal, leaving its outcome as
    an inequality among the hypotheses. *)
Ltac cmp :=
  repeat match goal with
  | |- context [ge ?x ?y] =>
      let E := fresh "E" in
      destruct (ge x y) eqn:E;
      [apply ge_true in E | apply ge_false in E]
  | |- context [lt ?x ?y] =>
      let E := fresh "E" in
      destruct (lt x y) eqn:E;
      [apply lt_true in E | apply lt_false in E]
  | |- context [gt ?x ?y] =>
      let E := fresh "E" in
      destruct (gt x y) eqn:E;
      [apply gt_true in E | apply gt_false in E]
  end.

Lemma Qmax_cases (x y : Q) :
  (y <= x /\ Qmax x y == x) \/ (x <= y /\ Qmax x y == y).
Proof.
  destruct (Q.max_spec x y) as [[H E] | [H E]]; [right | left]; split;
    auto using Qlt_le_weak.
Qed.

Lemma Qmin_cases (x y : Q) :
  (x <= y /\ Qmin x y == x) \/ (y <= x /\ Qmin x y == y).
Proof.
  destruct (Q.min_spec x y) as [[H E] | [H E]]; [left | right]; split;
    auto using Qlt_le_weak.
Qed.

Lemma Qabs_cases (x : Q) :
  (0 <= x /\ Qabs x == x) \/ (x <= 0 /\ Qabs x == - x).
Proof.
  destruct (Qlt_le_dec x 0) as [H | H].
  - right. split; [lra |]. apply Qabs_neg. lra.
  - left. split; [assumption |]. apply Qabs_pos. assumption.
Qed.

(** Closed goals: run the program. *)
Ltac evaluate :=
  cbv zeta;
  repeat match goal with |- _ /\ _ => split end;
  vm_compute;
  solve [ reflexivity | discriminate | intro; discriminate
        | let H := fresh in intro H; apply H; reflexivity ].

(** Case analysis on every [Qmax], [Qmin] and [Qabs] of the goal. *)
Ltac minmax :=
  repeat match goal with
  | |- context [Qabs ?x] =>
      let H := fresh in
      destruct (Qabs_cases x) as [[? H] | [? H]]; rewrite !H
  | |- context [Qmax ?x ?y] =>
      let H := fresh in
      destruct (Qmax_cases x y) as [[? H] | [? H]]; rewrite !H
  | |- context [Qmin ?x ?y] =>
      let H := fresh in
      destruct (Qmin_cases x y) as [[? H] | [? H]]; rewrite !H
  end.

(** ** The verdict engine *)

(** Reading a threshold that is configured. *)
Lemma getitem_Some (d : gmap string Q) k v :
  d !! k = Some v -> getitem d k = Ok v.
Proof. intros H. unfold getitem. now rewrite H. Qed.

(** The confidence of rules 5 and 6 stays between a half and one. *)
Lemma confidence_range tox spam :
  0 <= tox -> 0 <= spam ->
  0.5 <= Spec.confidence tox spam <= 1.
Proof.
  intros Ht Hs. unfold Spec.confidence. cmp; minmax; lra.
Qed.

(** With its four thresholds configured, the code runs the rules of the
    specification with [spam_medium] fixed at 0.5. *)
Lemma determine_classification_rules self tox spam sent a b c d :
  thresholds self !! "toxicity_high" = Some a ->
  thresholds self !! "toxicity_medium" = Some b ->
  thresholds self !! "spam_high" = Some c ->
  thresholds self !! "confidence_low" = Some d ->
  _determine_classification self tox spam sent
  = Ok (Spec.classify a b c 0.5 d tox spam).
Proof.
  intros Ha Hb Hc Hd.
  unfold _determine_classification, Spec.classify, Spec.confidence.
  rewrite (getitem_Some _ _ _ Ha), (getitem_Some _ _ _ Hb),
    (getitem_Some _ _ _ Hc), (getitem_Some _ _ _ Hd).
  unfold mbind, res_bind, Py.bind.
  destruct (ge tox a); [reflexivity |].
  destruct (ge spam c); [reflexivity |].
  destruct (ge tox b); [reflexivity |].
  destruct (ge spam 0.5); [reflexivity |].
  match goal with |- context [lt ?x d] => destruct (lt x d) end; reflexivity.
Qed.

(** C1. With [toxicity_high] at its default 0.8, every toxicity score of
    at least 0.8 is classified 'toxic' with the score itself as the
    confidence, whatever the spam score and the sentiment are: rule 1 is
    tried first. *)
Theorem high_toxicity_is_toxic self tox spam sent :
  thresholds self !! "toxicity_high" = Some 0.8 ->
  0.8 <= tox ->
  _determine_classification self tox spam sent = Ok ("toxic", tox).
Proof.
  intros Hhigh Htox. unfold _determine_classification.
  rewrite (getitem_Some _ _ _ Hhigh). unfold mbind, res_bind, Py.bind.
  apply ge_true in Htox. now rewrite Htox.
Qed.

(** Rule 1 wins over rule 2: toxicity 0.85 with spam 0.9 is 'toxic'. *)
Lemma toxic_wins_over_spam :
  thresholds (init no_model no_model) !! "toxicity_high" = Some 0.8 /\
  0.8 <= 0.85 /\
  _determine_classification (init no_model no_model) 0.85 0.9 neutral
  = Ok ("toxic", 0.85).
Proof.
  assert (Hhigh : thresholds (init no_model no_model) !! "toxicity_high"
                  = Some 0.8) by reflexivity.
  assert (Htox : 0.8 <= 0.85) by (compute; discriminate).
  exact (conj Hhigh (conj Htox
           (high_toxicity_is_toxic _ 0.85 0.9 neutral Hhigh Htox))).
Defined.

(** C2. At toxicity 0 and spam 0 the code computes the confidence
    1 - max(|0 - 0.5|, |0 - 0.5|) = 0.5, below [confidence_low], and
    answers 'needs_review' with confidence 0.5, not 'acceptable' with
    confidence 1.0. *)
Theorem clean_content_is_sent_to_review tm sm :
  exists confidence,
    _determine_classification (init tm sm) 0 0 neutral
    = Ok ("needs_review", confidence)
    /\ confidence == 0.5.
Proof. eexists. split; reflexivity. Qed.

(** The same happens to every score vector with a score below 0.1: with
    the initial thresholds 'acceptable' needs both scores in [0.1, 0.6). *)
Lemma acceptable_needs_both_scores_above_a_tenth tm sm tox spam sent conf :
  _determine_classification (init tm sm) tox spam sent
  = Ok ("acceptable", conf) ->
  0.1 <= tox < 0.6 /\ 0.1 <= spam < 0.5.
Proof.
  rewrite (determine_classification_rules _ _ _ _ 0.8 0.6 0.7 0.6)
    by reflexivity.
  unfold Spec.classify, Spec.confidence. cmp; try discriminate; intros _;
    repeat match goal with H : context [Qmax _ _] |- _ => revert H end;
    minmax; lra.
Qed.


(** Thresholds other than those of an update are kept. *)
Lemma thresholds_update self new k :
  thresholds (update_thresholds self new) !! k
  = match new !! k with
    | Some v => Some v
    | None => thresholds self !! k
    end.
Proof.
  unfold update_thresholds. cbn [thresholds].
  destruct (new !! k) as [v |] eqn:E.
  - now apply lookup_union_Some_l.
  - now apply lookup_union_r.
Qed.



(** C10. With the four thresholds configured and both scores in [0,1],
    the engine returns a verdict whose confidence lies in [0,1];
    'acceptable' comes with a confidence of at least [confidence_low]
    (0.6 initially), and 'needs_review' from rule 3 or rule 4 with a
    confidence of at least 0.6. *)
Theorem confidence_invariants self tox spam sent a b c d :
  thresholds self !! "toxicity_high" = Some a ->
  thresholds self !! "toxicity_medium" = Some b ->
  thresholds self !! "spam_high" = Some c ->
  thresholds self !! "confidence_low" = Some d ->
  0 <= tox <= 1 -> 0 <= spam <= 1 ->
  exists cls conf,
    _determine_classification self tox spam sent = Ok (cls, conf) /\
    0 <= conf <= 1 /\
    (cls = "acceptable" -> d <= conf) /\
    (tox < a -> spam < c -> b <= tox \/ 0.5 <= spam ->
     cls = "needs_review" /\ 0.6 <= conf).
Proof.
  intros Ha Hb Hc Hd Ht Hs.
  rewrite (determine_classification_rules _ _ _ _ a b c d) by assumption.
  pose proof (confidence_range tox spam (proj1 Ht) (proj1 Hs)) as Hconf.
  unfold Spec.classify. cmp; eexists _, _; (split; [reflexivity |]);
    repeat split; try discriminate; try lra; intros;
    try (exfalso; lra); minmax; lra.
Qed.

(** The initial configuration on a medium toxicity score. *)
Lemma confidence_invariants_initially :
  let self := init no_model no_model in
  (0 <= 0.65 <= 1 /\ 0 <= 0.2 <= 1) /\
  exists cls conf,
    _determine_classification self 0.65 0.2 neutral = Ok (cls, conf) /\
    0 <= conf <= 1 /\
    (cls = "acceptable" -> 0.6 <= conf) /\
    (0.65 < 0.8 -> 0.2 < 0.7 -> 0.6 <= 0.65 \/ 0.5 <= 0.2 ->
     cls = "needs_review" /\ 0.6 <= conf).
Proof.
  assert (Ht : 0 <= 0.65 <= 1) by (split; compute; discriminate).
  assert (Hs : 0 <= 0.2 <= 1) by (split; compute; discriminate).
  exact (conj (conj Ht Hs)
           (confidence_invariants (init no_model no_model) 0.65 0.2 neutral
              0.8 0.6 0.7 0.6 eq_refl eq_refl eq_refl eq_refl Ht Hs)).
Defined.

(** ** The classifier front end *)

(** Which rule a verdict comes from: 'spam' only from rule 2, after
    [spam_high] was read. *)
Lemma determine_classification_cases self tox spam sent cls conf :
  _determine_classification self tox spam sent = Ok (cls, conf) ->
  cls = "toxic"
  \/ (cls = "spam" /\ exists v, thresholds self !! "spam_high" = Some v)
  \/ cls = "needs_review"
  \/ cls = "acceptable".
Proof.
  unfold _determine_classification, getitem, mbind, res_bind, Py.bind.
  repeat match goal with
  | |- context [thresholds self !! ?k] =>
      destruct (thresholds self !! k) eqn:?; try discriminate
  | |- context [if ?b then _ else _] => destruct b
  end;
  intros [= <- <-]; eauto 6.
Qed.

(** The two ways out of [_classify_sync]. *)
Lemma classify_sync_ok self content cls conf :
  _determine_classification self (score (_detect_toxicity self content))
    (_detect_spam self content) (_analyze_sentiment self content)
  = Ok (cls, conf) ->
  _classify_sync self content
  = {| Result.classification := cls;
       Result.confidence := conf;
       Result.toxicity_score := score (_detect_toxicity self content);
       Result.spam_score := _detect_spam self content;
       Result.sentiment := label (_analyze_sentiment self content);
       Result.sentiment_score := score (_analyze_sentiment self content);
       Result.threshold := get (thresholds self) (cls +:+ "_high") 0.5;
       Result.model_version := model_version self;
       Result.content_length := Some (len content);
       Result.word_count := Some (length (split content));
       Result.error := None |}.
Proof.
  intros H. unfold _classify_sync. rewrite H. reflexivity.
Qed.

Lemma classify_sync_raise self content e :
  _determine_classification self (score (_detect_toxicity self content))
    (_detect_spam self content) (_analyze_sentiment self content)
  = Raise e ->
  _classify_sync self content
  = {| Result.classification := "needs_review";
       Result.confidence := 0.0;
       Result.toxicity_score := 0.0;
       Result.spam_score := 0.0;
       Result.sentiment := "neutral";
       Result.sentiment_score := 0.5;
       Result.threshold := 0.0;
       Result.model_version := model_version self;
       Result.content_length := None;
       Result.word_count := None;
       Result.error := Some (str e) |}.
Proof.
  intros H. unfold _classify_sync. rewrite H. reflexivity.
Qed.

(** Every result carries one of the four classifications. *)
Lemma classify_sync_classification self content :
  Result.classification (_classify_sync self content)
  ∈ ["acceptable"; "needs_review"; "toxic"; "spam"].
Proof.
  destruct (_determine_classification self
              (score (_detect_toxicity self content))
              (_detect_spam self content) (_analyze_sentiment self content))
    as [[cls conf] | e] eqn:E.
  - rewrite (classify_sync_ok _ _ _ _ E). cbn.
    destruct (determine_classification_cases _ _ _ _ _ _ E)
      as [-> | [[-> _] | [-> | ->]]]; set_solver.
  - rewrite (classify_sync_raise _ _ _ E). cbn. set_solver.
Qed.

(** The text of the repository's test [test_acceptable_content], which
    asserts the classification 'acceptable' with a confidence above 0.5:
    its spam score is 0, so whatever the models answer it is never
    'acceptable'. *)
Lemma great_product_is_never_acceptable tm sm :
  let text := "This is a great product! I really enjoy using it." in
  _detect_spam (init tm sm) text = 0.0 /\
  Result.classification (_classify_sync (init tm sm) text) <> "acceptable".
Proof.
  cbv zeta. assert (Hspam : _detect_spam (init tm sm)
                     "This is a great product! I really enjoy using it."
                   = 0.0) by (vm_compute; reflexivity).
  split; [exact Hspam |].
  destruct (_determine_classification (init tm sm)
              (score (_detect_toxicity (init tm sm)
                 "This is a great product! I really enjoy using it."))
              (_detect_spam (init tm sm)
                 "This is a great product! I really enjoy using it.")
              (_analyze_sentiment (init tm sm)
                 "This is a great product! I really enjoy using it."))
    as [[cls conf] | e] eqn:E.
  - rewrite (classify_sync_ok _ _ _ _ E). cbn. intros ->.
    apply acceptable_needs_both_scores_above_a_tenth in E.
    rewrite Hspam in E. lra.
  - rewrite (classify_sync_raise _ _ _ E). discriminate.
Qed.

(** C9, as stated, fails: a toxicity score of 0.65 is sent to review by
    rule 3, whose threshold [toxicity_medium] is 0.6, and the result
    reports 0.5. *)
Lemma medium_toxicity_reports_default_threshold :
  let self := init (constant_model "toxic" 0.65) no_model in
  let r := _classify_sync self "hello" in
  Result.classification r = "needs_review" /\
  Result.toxicity_score r == 0.65 /\
  thresholds self !! "toxicity_medium" = Some 0.6 /\
  Result.threshold r = 0.5 /\
  ~ Result.threshold r == 0.6.
Proof. evaluate. Qed.

(** The look-up key is the classification followed by "_high", so rule 1
    finds no "toxic_high" either and reports 0.5 beside the configured
    [toxicity_high] of 0.8. *)
Lemma toxic_reports_default_threshold :
  let self := init (constant_model "toxic" 0.9) no_model in
  let r := _classify_sync self "hello" in
  Result.classification r = "toxic" /\
  thresholds self !! "toxicity_high" = Some 0.8 /\
  Result.threshold r = 0.5.
Proof. evaluate. Qed.

(** C9, amended. For the classifications other than 'toxic': the reported
    threshold is the configured [spam_high] when the classification is
    'spam'; it is the default 0.5 when the classification is
    'needs_review' or 'acceptable' on the normal path, as long as no
    threshold of the name "needs_review_high" or "acceptable_high" is
    configured; and it is 0.0 in the safe-default result. *)
Theorem threshold_is_high_key_or_default self content :
  let r := _classify_sync self content in
  (Result.classification r = "spam" ->
   thresholds self !! "spam_high" = Some (Result.threshold r)) /\
  (Result.error r = None ->
   Result.classification r = "needs_review"
   \/ Result.classification r = "acceptable" ->
   thresholds self !! (Result.classification r +:+ "_high") = None ->
   Result.threshold r = 0.5) /\
  (Result.error r <> None ->
   Result.classification r = "needs_review" /\ Result.threshold r = 0.0).
Proof.
  cbv zeta.
  destruct (_determine_classification self
              (score (_detect_toxicity self content))
              (_detect_spam self content) (_analyze_sentiment self content))
    as [[cls conf] | e] eqn:E.
  - rewrite (classify_sync_ok _ _ _ _ E). cbn.
    split; [| split].
    + intros ->.
      destruct (determine_classification_cases _ _ _ _ _ _ E)
        as [? | [[_ [v Hv]] | [? | ?]]]; try discriminate.
      unfold get. change ("spam" +:+ "_high") with "spam_high".
      now rewrite Hv.
    + intros _ _ Hnone. unfold get. now rewrite Hnone.
    + intros H. now contradiction H.
  - rewrite (classify_sync_raise _ _ _ E). cbn.
    repeat split; try discriminate.
Qed.

(** The reported values on runs of the initial classifier, 0.7 for 'spam'
    and 0.5 for 'needs_review', and 0.0 from a classifier whose
    thresholds were lost. *)
Lemma threshold_reports :
  let spam_text := "CLICK HERE!!! BUY NOW!!! LIMITED TIME ACT NOW" in
  let self := init no_model no_model in
  let broken :=
    {| model_version := "1.0.0";
       toxicity_classifier := no_model;
       sentiment_classifier := no_model;
       spam_patterns := [];
       thresholds := ∅ |} in
  (Result.classification (_classify_sync self spam_text) = "spam" /\
   thresholds self !! "spam_high"
   = Some (Result.threshold (_classify_sync self spam_text)) /\
   Result.threshold (_classify_sync self spam_text) = 0.7) /\
  (Result.classification (_classify_sync self "hello") = "needs_review" /\
   Result.error (_classify_sync self "hello") = None /\
   Result.threshold (_classify_sync self "hello") = 0.5) /\
  (Result.error (_classify_sync broken "hello") <> None /\
   Result.classification (_classify_sync broken "hello") = "needs_review" /\
   Result.threshold (_classify_sync broken "hello") = 0.0).
Proof.
  pose proof (threshold_is_high_key_or_default (init no_model no_model)
                "CLICK HERE!!! BUY NOW!!! LIMITED TIME ACT NOW")
    as (Hspam & _).
  pose proof (threshold_is_high_key_or_default (init no_model no_model)
                "hello") as (_ & Hreview & _).
  pose proof (threshold_is_high_key_or_default
                {| model_version := "1.0.0";
                   toxicity_classifier := no_model;
                   sentiment_classifier := no_model;
                   spam_patterns := [];
                   thresholds := ∅ |} "hello") as (_ & _ & Hbroken).
  assert (Hcls : Result.classification
                   (_classify_sync (init no_model no_model)
                      "CLICK HERE!!! BUY NOW!!! LIMITED TIME ACT NOW")
                 = "spam") by reflexivity.
  assert (Herr : Result.error
                   (_classify_sync
                      {| model_version := "1.0.0";
                         toxicity_classifier := no_model;
                         sentiment_classifier := no_model;
                         spam_patterns := [];
                         thresholds := ∅ |} "hello") <> None)
    by discriminate.
  specialize (Hspam Hcls).
  specialize (Hreview eq_refl (or_introl eq_refl) eq_refl).
  specialize (Hbroken Herr).
  cbv zeta.
  exact (conj (conj Hcls (conj Hspam eq_refl))
           (conj (conj eq_refl (conj eq_refl Hreview))
              (conj Herr Hbroken))).
Defined.

(** ** The spam heuristic *)

Lemma float_nonneg n : 0 <= float n.
Proof.
  unfold float. change 0 with (inject_Z 0). rewrite <- Zle_Qle. lia.
Qed.

Lemma float_le n m : (n <= m)%nat -> float n <= float m.
Proof. intros H. unfold float. rewrite <- Zle_Qle. lia. Qed.

(** The score is the clamped sum of the four contributions. *)
Lemma detect_spam_sum self content :
  _detect_spam self content
  == Qmin (pattern_score self content + caps_score content
           + punct_score content + repetition_score content) 1.
Proof.
  unfold _detect_spam, pattern_score, caps_score, punct_score,
    repetition_score.
  fold (pattern_matches self content).
  repeat match goal with
  | |- context [if ?b then _ else _] => destruct b
  end; minmax; lra.
Qed.

Lemma pattern_score_range self content :
  0 <= pattern_score self content <= 0.5.
Proof.
  unfold pattern_score.
  pose proof (float_nonneg (pattern_matches self content)).
  destruct (0 <? pattern_matches self content)%nat; minmax; lra.
Qed.

Lemma pattern_score_mono self content content' :
  (pattern_matches self content <= pattern_matches self content')%nat ->
  pattern_score self content <= pattern_score self content'.
Proof.
  intros Hle. unfold pattern_score.
  pose proof (float_le _ _ Hle).
  pose proof (float_nonneg (pattern_matches self content')).
  destruct (Nat.ltb_spec 0 (pattern_matches self content));
    destruct (Nat.ltb_spec 0 (pattern_matches self content'));
    try lia; minmax; lra.
Qed.

Lemma caps_score_range content : 0 <= caps_score content <= 0.2.
Proof.
  unfold caps_score.
  repeat match goal with
  | |- context [if ?b then _ else _] => destruct b
  end; lra.
Qed.

Lemma punct_score_range content : 0 <= punct_score content <= 0.15.
Proof. unfold punct_score. destruct (_ <? _)%nat; lra. Qed.

Lemma repetition_score_range content : 0 <= repetition_score content <= 0.2.
Proof.
  unfold repetition_score.
  repeat match goal with
  | |- context [if ?b then _ else _] => destruct b
  end; lra.
Qed.

(** C7, as stated, fails: appending three more matching phrases in lower
    case to an upper-case text raises the number of matching patterns
    from 4 to 7, which adds nothing beyond the cap of 0.5, and brings the
    share of capitals under a half, which takes 0.2 away. *)
Lemma more_matches_can_lower_the_score :
  let self := init no_model no_model in
  let text := "CLICK HERE BUY NOW LIMITED TIME ACT NOW" in
  let more := text +:+ " free money winner congratulations you won" in
  pattern_matches self text = 4%nat /\
  pattern_matches self more = 7%nat /\
  _detect_spam self text == 0.7 /\
  _detect_spam self more == 0.5 /\
  ~ _detect_spam self text <= _detect_spam self more.
Proof. evaluate. Qed.

(** C7, amended. For every text the score lies in [0,1], the pattern
    contribution in [0,0.5], and the score is the sum of the four
    contributions clamped to 1; it never decreases when more patterns
    match and the capitalisation, punctuation and repetition checks
    contribute no less.  The scorer is a total function. *)
Theorem spam_score_bounded_and_monotone_in_matches self content content' :
  0 <= _detect_spam self content <= 1 /\
  0 <= pattern_score self content <= 0.5 /\
  _detect_spam self content
  == Qmin (pattern_score self content + caps_score content
           + punct_score content + repetition_score content) 1 /\
  ((pattern_matches self content <= pattern_matches self content')%nat ->
   caps_score content <= caps_score content' ->
   punct_score content <= punct_score content' ->
   repetition_score content <= repetition_score content' ->
   _detect_spam self content <= _detect_spam self content').
Proof.
  pose proof (pattern_score_range self content).
  pose proof (caps_score_range content).
  pose proof (punct_score_range content).
  pose proof (repetition_score_range content).
  split; [| split; [assumption | split; [apply detect_spam_sum |]]].
  - rewrite detect_spam_sum. minmax; lra.
  - intros Hm Hc Hp Hr. apply pattern_score_mono in Hm.
    rewrite !detect_spam_sum. minmax; lra.
Qed.

(** One more matching phrase in a text whose other checks stay silent:
    the score goes from 0.15 to 0.3. *)
Lemma one_more_match_raises_the_score :
  let self := init no_model no_model in
  let text := "click here for the weather" in
  let more := "click here for the weather, act now" in
  ((pattern_matches self text <= pattern_matches self more)%nat /\
   caps_score text <= caps_score more /\
   punct_score text <= punct_score more /\
   repetition_score text <= repetition_score more) /\
  _detect_spam self text <= _detect_spam self more /\
  _detect_spam self text == 0.15 /\
  _detect_spam self more == 0.3.
Proof.
  pose proof (spam_score_bounded_and_monotone_in_matches
                (init no_model no_model)
                "click here for the weather"
                "click here for the weather, act now") as (_ & _ & _ & Hmono).
  assert (Hm : (pattern_matches (init no_model no_model)
                  "click here for the weather"
                <= pattern_matches (init no_model no_model)
                     "click here for the weather, act now")%nat)
    by (vm_compute; repeat constructor).
  assert (Hc : caps_score "click here for the weather"
               <= caps_score "click here for the weather, act now")
    by (vm_compute; discriminate).
  assert (Hp : punct_score "click here for the weather"
               <= punct_score "click here for the weather, act now")
    by (vm_compute; discriminate).
  assert (Hr : repetition_score "click here for the weather"
               <= repetition_score "click here for the weather, act now")
    by (vm_compute; discriminate).
  cbv zeta.
  exact (conj (conj Hm (conj Hc (conj Hp Hr)))
           (conj (Hmono Hm Hc Hp Hr) (conj eq_refl eq_refl))).
Defined.

(** ** The priority calculator *)

(** C8. The priority depends on the toxicity and the confidence only and
    is decided by the first rule that applies: 5 when the toxicity is
    above 0.7 or the confidence below 0.6; else 4 when the toxicity is
    above 0.5 or the confidence below 0.7; else 3 when the toxicity is
    above 0.3; else 2.  So it lies in 1..5 and is never 1; the four
    sample inputs give 5, 4, 3 and 2. *)
Theorem calculate_priority_rules (r : Result.t) :
  let toxicity := Result.toxicity_score r in
  let confidence := Result.confidence r in
  (forall r',
     Result.toxicity_score r' == toxicity ->
     Result.confidence r' == confidence ->
     calculate_priority r' = calculate_priority r) /\
  (0.7 < toxicity \/ confidence < 0.6 -> calculate_priority r = 5%Z) /\
  (toxicity <= 0.7 -> 0.6 <= confidence ->
   0.5 < toxicity \/ confidence < 0.7 -> calculate_priority r = 4%Z) /\
  (toxicity <= 0.5 -> 0.7 <= confidence ->
   0.3 < toxicity -> calculate_priority r = 3%Z) /\
  (toxicity <= 0.3 -> 0.7 <= confidence -> calculate_priority r = 2%Z) /\
  (1 <= calculate_priority r <= 5)%Z /\
  calculate_priority r <> 1%Z /\
  (forall confidence, calculate_priority (scored 0.9 confidence) = 5%Z) /\
  calculate_priority (scored 0.4 0.65) = 4%Z /\
  calculate_priority (scored 0.35 0.9) = 3%Z /\
  calculate_priority (scored 0.1 0.9) = 2%Z.
Proof.
  cbv zeta. unfold calculate_priority.
  repeat match goal with |- _ /\ _ => split end;
    try (intros; cbn [scored Result.toxicity_score Result.confidence]);
    cmp; cbn [orb]; try reflexivity; try lia; try discriminate;
    try (exfalso; revert E; vm_compute; congruence);
    try (exfalso; intuition lra).
Qed.

(** ** The request handler *)

Ltac unfold_handler :=
  unfold submit_content, log_error, try_except, apply_business_logic,
    store_content, transaction, log_classification_metrics, add_task,
    add_to_moderation_queue, notify_user, increment_violation_counter,
    execute, raise, mbind, M_bind, mret, M_ret.

(** One step of a run: compute, or split on whether the next statement
    fails. *)
Ltac step :=
  first
    [ progress cbn [with_db failing db background_tasks fst snd
                    String.eqb Ascii.eqb Bool.eqb orb app statements_of
                    default]
    | match goal with
      | |- context [failing ?w ?st] =>
          is_var w; destruct (failing w st) eqn:?
      end ].

(** No statement of the list fails, although one of them does. *)
Ltac no_failure Hin :=
  exfalso; cbn in Hin;
  repeat (apply elem_of_cons in Hin as [-> | Hin]; [congruence |]);
  now apply elem_of_nil in Hin.

Lemma four_classifications (s : string) :
  s ∈ ["acceptable"; "needs_review"; "toxic"; "spam"] ->
  s = "acceptable" \/ s = "needs_review" \/ s = "toxic" \/ s = "spam".
Proof.
  intros H.
  repeat (apply elem_of_cons in H as [-> | H]; [tauto |]).
  now apply elem_of_nil in H.
Qed.

Lemma classify_classification self content :
  let cls := Result.classification (classify self content) in
  cls = "acceptable" \/ cls = "needs_review" \/ cls = "toxic" \/ cls = "spam".
Proof.
  apply four_classifications, classify_sync_classification.
Qed.

(** The counter of an author and a violation type after the upsert. *)
Lemma upsert_user_violations_count author_id violation_type d :
  Db.user_violations (Db.upsert_user_violations author_id violation_type d)
    !! (author_id, violation_type)
  = Some (default 0 (Db.user_violations d !! (author_id, violation_type))
          + 1)%nat.
Proof.
  unfold Db.upsert_user_violations. cbn [Db.user_violations].
  destruct (Db.user_violations d !! (author_id, violation_type));
    now rewrite lookup_insert_eq.
Qed.

(** A request whose statements all succeed answers with the verdict. *)
Lemma submit_content_ok classifier content_id submission w :
  let r := classify classifier (ContentSubmission.content submission) in
  (forall st,
     st ∈ statements_of (Result.classification r) -> failing w st = None) ->
  exists resp w',
    submit_content classifier content_id submission w = (Ok resp, w') /\
    ClassificationResult.classification resp = Result.classification r /\
    ClassificationResult.confidence resp = Result.confidence r /\
    ClassificationResult.toxicity_score resp = Result.toxicity_score r /\
    ClassificationResult.spam_score resp = Result.spam_score r.
Proof.
  cbv zeta. intros Hok.
  pose proof (classify_classification classifier
                (ContentSubmission.content submission)) as Hcls.
  cbv zeta in Hcls. unfold_handler.
  destruct Hcls as [H | [H | [H | H]]]; rewrite H in *;
    repeat step;
    try match goal with
    | E : failing w ?st = Some _ |- _ =>
        rewrite Hok in E
          by (cbn; repeat first [apply list_elem_of_here
                                | apply list_elem_of_further]);
        discriminate E
    end;
    eexists _, _; (split; [reflexivity |]); cbn; rewrite ?H; auto.
Qed.

(** A request one of whose statements fails answers with HTTP 500, after
    an error entry in the audit log if that can still be written. *)
Lemma submit_content_fails classifier content_id submission w :
  let r := classify classifier (ContentSubmission.content submission) in
  (exists st,
     st ∈ statements_of (Result.classification r) /\ failing w st <> None) ->
  exists detail w',
    submit_content classifier content_id submission w
    = (Raise (HTTPException 500 detail), w') /\
    (failing w insert_error_audit_log = None ->
     exists error,
       last (Db.audit_log (db w'))
       = Some {| Db.AuditLog.content_id := content_id;
                 Db.AuditLog.event :=
                   Db.AuditLog.processing_error error submission |}).
Proof.
  cbv zeta. intros (st & Hin & Hne).
  pose proof (classify_classification classifier
                (ContentSubmission.content submission)) as Hcls.
  cbv zeta in Hcls. unfold_handler.
  destruct Hcls as [H | [H | [H | H]]]; rewrite H in *;
    repeat step; try no_failure Hin;
    (eexists _, _; split; [reflexivity |]);
    intros Hlog; try discriminate Hlog;
    eexists; cbn; apply last_snoc.
Qed.

(** C3. Where storage does not fail, each of the four classifications has
    its action, notification flag and side effect: 'acceptable' is
    approved with no write by the dispatcher and a publish task is
    scheduled; 'needs_review' is queued: the moderation queue has one
    more entry, pending and of the computed priority; 'toxic' and 'spam'
    are rejected: the notification table has one more row for the author
    and the violation counter of that type is up by one.  In any world,
    a publish task is scheduled only for 'acceptable'. *)
Theorem dispatch_table classifier content_id submission (r : Result.t) w :
  let author := ContentSubmission.author_id submission in
  let text := ContentSubmission.content submission in
  let cls := Result.classification (classify classifier text) in
  let dispatched := db (snd (apply_business_logic content_id submission r w)) in
  let queued priority :=
    {| Db.ModerationQueue.content_id := content_id;
       Db.ModerationQueue.author_id := author;
       Db.ModerationQueue.content_text := text;
       Db.ModerationQueue.reason := "needs_human_review";
       Db.ModerationQueue.priority := priority;
       Db.ModerationQueue.status := "pending" |} in
  let notified notification_type message :=
    {| Db.UserNotifications.author_id := author;
       Db.UserNotifications.notification_type := notification_type;
       Db.UserNotifications.message := message;
       Db.UserNotifications.status := "sent" |} in
  ((forall st, failing w st = None) ->
   (Result.classification r = "acceptable" ->
    apply_business_logic content_id submission r w
    = (Ok {| Action.action := "approved_and_stored";
             Action.notification_sent := Some false |}, w)) /\
   (Result.classification r = "needs_review" ->
    apply_business_logic content_id submission r w
    = (Ok {| Action.action := "queued_for_review";
             Action.notification_sent := Some false |},
       with_db
         (Db.insert_moderation_queue
            {| Db.ModerationQueue.content_id := content_id;
               Db.ModerationQueue.author_id := author;
               Db.ModerationQueue.content_text := text;
               Db.ModerationQueue.reason := "needs_human_review";
               Db.ModerationQueue.priority := calculate_priority r;
               Db.ModerationQueue.status := "pending" |}) w) /\
    Db.moderation_queue dispatched
    = Db.moderation_queue (db w) ++ [queued (calculate_priority r)] /\
    Db.user_notifications dispatched = Db.user_notifications (db w) /\
    Db.user_violations dispatched = Db.user_violations (db w)) /\
   (Result.classification r = "toxic" ->
    apply_business_logic content_id submission r w
    = (Ok {| Action.action := "rejected_toxic";
             Action.notification_sent := Some true |},
       with_db (Db.upsert_user_violations author "toxic")
         (with_db
            (Db.insert_user_notifications
               {| Db.UserNotifications.author_id := author;
                  Db.UserNotifications.notification_type := "toxic";
                  Db.UserNotifications.message :=
                    "Your content was flagged as toxic and has been rejected.";
                  Db.UserNotifications.status := "sent" |}) w)) /\
    Db.user_notifications dispatched
    = Db.user_notifications (db w)
      ++ [notified "toxic"
            "Your content was flagged as toxic and has been rejected."] /\
    Db.user_violations dispatched !! (author, "toxic")
    = Some (default 0 (Db.user_violations (db w) !! (author, "toxic")) + 1)%nat /\
    Db.moderation_queue dispatched = Db.moderation_queue (db w)) /\
   (Result.classification r = "spam" ->
    apply_business_logic content_id submission r w
    = (Ok {| Action.action := "rejected_spam";
             Action.notification_sent := Some true |},
       with_db (Db.upsert_user_violations author "spam")
         (with_db
            (Db.insert_user_notifications
               {| Db.UserNotifications.author_id := author;
                  Db.UserNotifications.notification_type := "spam";
                  Db.UserNotifications.message :=
                    "Your content was identified as spam and has been rejected.";
                  Db.UserNotifications.status := "sent" |}) w)) /\
    Db.user_notifications dispatched
    = Db.user_notifications (db w)
      ++ [notified "spam"
            "Your content was identified as spam and has been rejected."] /\
    Db.user_violations dispatched !! (author, "spam")
    = Some (default 0 (Db.user_violations (db w) !! (author, "spam")) + 1)%nat /\
    Db.moderation_queue dispatched = Db.moderation_queue (db w)) /\
   (forall violation_type d,
      Db.user_violations (Db.upsert_user_violations author violation_type d)
        !! (author, violation_type)
      = Some (default 0 (Db.user_violations d !! (author, violation_type))
              + 1)%nat) /\
   exists resp w',
     submit_content classifier content_id submission w = (Ok resp, w') /\
     (row_of resp = ("acceptable", "approved_and_stored", false) /\
      background_tasks w'
      = background_tasks w ++ [post_to_social_media content_id text]
      \/ (row_of resp = ("needs_review", "queued_for_review", false)
          \/ row_of resp = ("toxic", "rejected_toxic", true)
          \/ row_of resp = ("spam", "rejected_spam", true)) /\
         background_tasks w' = background_tasks w) /\
     (cls = "acceptable" ->
      Db.moderation_queue (db w') = Db.moderation_queue (db w) /\
      Db.user_notifications (db w') = Db.user_notifications (db w) /\
      Db.user_violations (db w') = Db.user_violations (db w)) /\
     (cls = "needs_review" ->
      Db.moderation_queue (db w')
      = Db.moderation_queue (db w)
        ++ [queued (calculate_priority (classify classifier text))] /\
      Db.user_notifications (db w') = Db.user_notifications (db w) /\
      Db.user_violations (db w') = Db.user_violations (db w)) /\
     (cls = "toxic" \/ cls = "spam" ->
      (exists message,
         Db.user_notifications (db w')
         = Db.user_notifications (db w) ++ [notified cls message]) /\
      Db.user_violations (db w') !! (author, cls)
      = Some (default 0 (Db.user_violations (db w) !! (author, cls)) + 1)%nat /\
      Db.moderation_queue (db w') = Db.moderation_queue (db w))) /\
  (background_tasks (snd (submit_content classifier content_id submission w))
   <> background_tasks w ->
   cls = "acceptable").
Proof.
  cbv zeta. split.
  - intros Hok. repeat apply conj.
    + intros H. unfold_handler. rewrite H. reflexivity.
    + intros H. unfold_handler. rewrite H.
      repeat step; [rewrite Hok in *; discriminate |].
      repeat split.
    + intros H. unfold_handler. rewrite H.
      repeat step; try (rewrite Hok in *; discriminate).
      repeat split.
      etransitivity; [apply upsert_user_violations_count | reflexivity].
    + intros H. unfold_handler. rewrite H.
      repeat step; try (rewrite Hok in *; discriminate).
      repeat split.
      etransitivity; [apply upsert_user_violations_count | reflexivity].
    + intros. apply upsert_user_violations_count.
    + pose proof (classify_classification classifier
                    (ContentSubmission.content submission)) as Hcls.
      cbv zeta in Hcls. unfold_handler. unfold row_of.
      destruct Hcls as [H | [H | [H | H]]]; rewrite H in *;
        repeat step; try (rewrite Hok in *; discriminate);
        eexists _, _; (split; [reflexivity |]); cbn; rewrite ?H;
        (split; [tauto |]);
        (split; [| split]); intros Hc;
        try discriminate Hc; try (destruct Hc as [Hc | Hc]; discriminate Hc);
        repeat split; try (eexists; reflexivity);
        (etransitivity; [apply upsert_user_violations_count | reflexivity]).
  - pose proof (classify_classification classifier
                  (ContentSubmission.content submission)) as Hcls.
    cbv zeta in Hcls. unfold_handler.
    destruct Hcls as [H | [H | [H | H]]]; rewrite H in *;
      [reflexivity | ..]; repeat step; cbn; intros Hne; now contradiction Hne.
Qed.

(** The four rows on runs of the initial classifier against a healthy
    database. *)
Lemma dispatch_table_on_healthy_storage :
  (forall st, failing healthy st = None) /\
  (exists resp w',
     submit_content (init (constant_model "toxic" 0.9) no_model) "id-1"
       hello healthy = (Ok resp, w') /\
     row_of resp = ("toxic", "rejected_toxic", true) /\
     background_tasks w' = [] /\
     Db.user_notifications (db w')
     = [ {| Db.UserNotifications.author_id :=
              ContentSubmission.author_id hello;
            Db.UserNotifications.notification_type := "toxic";
            Db.UserNotifications.message :=
              "Your content was flagged as toxic and has been rejected.";
            Db.UserNotifications.status := "sent" |} ] /\
     Db.user_violations (db w') !! (ContentSubmission.author_id hello, "toxic")
     = Some 1%nat) /\
  (exists resp w',
     submit_content (init (constant_model "toxic" 0.3) (constant_model "x" 0.5))
       "id-2"
       {| ContentSubmission.content := "click here for the weather";
          ContentSubmission.author_id := "u2";
          ContentSubmission.platform := "web";
          ContentSubmission.metadata := ∅ |}
       healthy = (Ok resp, w') /\
     row_of resp = ("acceptable", "approved_and_stored", false) /\
     background_tasks w'
     = [post_to_social_media "id-2" "click here for the weather"]).
Proof.
  assert (Hok : forall st, failing healthy st = None) by reflexivity.
  split; [exact Hok |]. split.
  - destruct (dispatch_table (init (constant_model "toxic" 0.9) no_model)
                "id-1" hello (scored 0 0) healthy)
      as [Htable _].
    destruct (Htable Hok) as (_ & _ & _ & _ & _ & resp & w' & Hrun & Hrow).
    exists resp, w'. split; [exact Hrun |].
    vm_compute in Hrun. injection Hrun as <- <-.
    repeat split; vm_compute; reflexivity.
  - destruct (dispatch_table
                (init (constant_model "toxic" 0.3) (constant_model "x" 0.5))
                "id-2"
                {| ContentSubmission.content := "click here for the weather";
                   ContentSubmission.author_id := "u2";
                   ContentSubmission.platform := "web";
                   ContentSubmission.metadata := ∅ |}
                (scored 0 0) healthy)
      as [Htable _].
    destruct (Htable Hok) as (_ & _ & _ & _ & _ & resp & w' & Hrun & Hrow).
    exists resp, w'. split; [exact Hrun |].
    vm_compute in Hrun. injection Hrun as <- <-. split; reflexivity.
Defined.

(** C5, as stated, fails: the content is classified 'toxic', the
    notification cannot be written, and the caller gets HTTP 500 instead
    of the classification result. *)
Lemma failed_notification_aborts_request :
  let classifier := init (constant_model "toxic" 0.9) no_model in
  Result.classification
    (classify classifier (ContentSubmission.content hello)) = "toxic" /\
  fst (submit_content classifier "id-1" hello notifications_down)
  = Raise (HTTPException 500 "Failed to process content: connection lost").
Proof. evaluate. Qed.

(** C5, amended. Once the verdict is produced, the request returns the
    classification result exactly when every statement it runs succeeds;
    a failure of any of them (queue insertion, notification, violation
    counter, content record, audit entry, metrics) is caught by the
    handler, which writes an error entry to the audit log if it can and
    ends the request with HTTP 500. *)
Theorem side_effect_failure_aborts_request
    classifier content_id submission w :
  let r := classify classifier (ContentSubmission.content submission) in
  ((exists st,
      st ∈ statements_of (Result.classification r) /\ failing w st <> None) ->
   exists detail w',
     submit_content classifier content_id submission w
     = (Raise (HTTPException 500 detail), w') /\
     (failing w insert_error_audit_log = None ->
      exists error,
        last (Db.audit_log (db w'))
        = Some {| Db.AuditLog.content_id := content_id;
                  Db.AuditLog.event :=
                    Db.AuditLog.processing_error error submission |})) /\
  ((forall st,
      st ∈ statements_of (Result.classification r) -> failing w st = None) ->
   exists resp w',
     submit_content classifier content_id submission w = (Ok resp, w') /\
     ClassificationResult.classification resp = Result.classification r /\
     ClassificationResult.confidence resp = Result.confidence r).
Proof.
  cbv zeta. split.
  - apply submit_content_fails.
  - intros Hok.
    destruct (submit_content_ok classifier content_id submission w Hok)
      as (resp & w' & Hrun & Hcls & Hconf & _).
    eauto.
Qed.

(** The failing notification, through the theorem. *)
Lemma failed_notification_is_http_500 :
  let classifier := init (constant_model "toxic" 0.9) no_model in
  (exists st,
     st ∈ statements_of
            (Result.classification
               (classify classifier (ContentSubmission.content hello)))
     /\ failing notifications_down st <> None) /\
  exists detail w',
    submit_content classifier "id-1" hello notifications_down
    = (Raise (HTTPException 500 detail), w') /\
    (failing notifications_down insert_error_audit_log = None ->
     exists error,
       last (Db.audit_log (db w'))
       = Some {| Db.AuditLog.content_id := "id-1";
                 Db.AuditLog.event :=
                   Db.AuditLog.processing_error error hello |}).
Proof.
  assert (Hfail :
    exists st,
      st ∈ statements_of
             (Result.classification
                (classify (init (constant_model "toxic" 0.9) no_model)
                   (ContentSubmission.content hello)))
      /\ failing notifications_down st <> None).
  { exists insert_user_notifications. split.
    - vm_compute. apply list_elem_of_here.
    - discriminate. }
  exact (conj Hfail
           (proj1 (side_effect_failure_aborts_request
                     (init (constant_model "toxic" 0.9) no_model)
                     "id-1" hello notifications_down) Hfail)).
Defined.

(** C4, as stated, fails: with the toxicity model down, an upper-case
    promotional text is still scored by the spam heuristic and classified
    'spam' with confidence 0.85, not 'needs_review' with confidence and
    scores 0.0. *)
Lemma failed_toxicity_model_still_classifies :
  let self := init no_model no_model in
  let content := "CLICK HERE!!! BUY NOW!!! LIMITED TIME ACT NOW" in
  let r := _classify_sync self content in
  toxicity_classifier self (prefix 512 content)
  = Raise (ModelError "model unavailable") /\
  Result.classification r = "spam" /\
  Result.confidence r == 0.85 /\
  Result.spam_score r == 0.85 /\
  Result.error r = None.
Proof. evaluate. Qed.

(** C4, amended. When the toxicity model raises, [_detect_toxicity]
    answers 'unknown' with score 0.0, a failing sentiment model is
    replaced by 'neutral' with score 0.5, and the verdict is the one the
    rules give for toxicity 0.0 and the spam score of the text.  The
    fixed safe result (needs_review, confidence 0.0, scores 0.0) is
    returned when an exception escapes the scoring steps.
    [_classify_sync] returns a result in every case, and where storage
    does not fail so does the request. *)
Theorem scorer_failure_is_absorbed self content :
  let r := _classify_sync self content in
  (forall e,
     toxicity_classifier self (prefix 512 content) = Raise e ->
     _detect_toxicity self content = {| label := "unknown"; score := 0.0 |} /\
     forall cls conf,
       _determine_classification self 0.0 (_detect_spam self content)
         (_analyze_sentiment self content) = Ok (cls, conf) ->
       Result.classification r = cls /\
       Result.confidence r = conf /\
       Result.toxicity_score r = 0.0 /\
       Result.spam_score r = _detect_spam self content /\
       Result.error r = None) /\
  (forall e,
     sentiment_classifier self (prefix 512 content) = Raise e ->
     _analyze_sentiment self content = {| label := "neutral"; score := 0.5 |}) /\
  (forall e,
     _determine_classification self (score (_detect_toxicity self content))
       (_detect_spam self content) (_analyze_sentiment self content)
     = Raise e ->
     Result.classification r = "needs_review" /\
     Result.confidence r = 0.0 /\
     Result.toxicity_score r = 0.0 /\
     Result.spam_score r = 0.0 /\
     Result.threshold r = 0.0 /\
     Result.error r = Some (str e)) /\
  (forall content_id submission w,
     ContentSubmission.content submission = content ->
     (forall st, failing w st = None) ->
     exists resp w',
       submit_content self content_id submission w = (Ok resp, w') /\
       ClassificationResult.classification resp = Result.classification r /\
       ClassificationResult.confidence resp = Result.confidence r).
Proof.
  cbv zeta. repeat apply conj.
  - intros e He.
    assert (Htox : _detect_toxicity self content
                   = {| label := "unknown"; score := 0.0 |})
      by (unfold _detect_toxicity; now rewrite He).
    split; [exact Htox |].
    intros cls conf Hrules.
    rewrite (classify_sync_ok self content cls conf)
      by (rewrite Htox; exact Hrules).
    rewrite Htox. repeat split.
  - intros e He. unfold _analyze_sentiment. now rewrite He.
  - intros e He. rewrite (classify_sync_raise _ _ _ He). repeat split.
  - intros content_id submission w <- Hok.
    destruct (submit_content_ok self content_id submission w
                (fun st _ => Hok st))
      as (resp & w' & Hrun & Hcls & Hconf & _).
    eauto.
Qed.

(** The two ways out on concrete runs: a classifier whose models are
    down, on a text the spam heuristic lets through, and a classifier
    whose thresholds were lost. *)
Lemma scorer_failure_examples :
  let self := init no_model no_model in
  let broken :=
    {| model_version := "1.0.0";
       toxicity_classifier := no_model;
       sentiment_classifier := no_model;
       spam_patterns := [];
       thresholds := ∅ |} in
  (Result.classification (_classify_sync self "hello") = "needs_review" /\
   Result.confidence (_classify_sync self "hello") == 0.5 /\
   Result.error (_classify_sync self "hello") = None) /\
  (Result.classification (_classify_sync broken "hello") = "needs_review" /\
   Result.confidence (_classify_sync broken "hello") = 0.0 /\
   Result.error (_classify_sync broken "hello") = Some "'toxicity_high'").
Proof.
  cbv zeta. split.
  - destruct (scorer_failure_is_absorbed (init no_model no_model) "hello")
      as (Hdown & _).
    destruct (Hdown (ModelError "model unavailable") eq_refl) as [_ Hrun].
    destruct (Hrun "needs_review" (1.0 - Qmax (Qabs (0.0 - 0.5)) (Qabs (0.0 - 0.5)))
                eq_refl)
      as (Hcls & Hconf & _ & _ & Herr).
    split; [exact Hcls |]. split; [| exact Herr].
    rewrite Hconf. reflexivity.
  - destruct (scorer_failure_is_absorbed
                {| model_version := "1.0.0";
                   toxicity_classifier := no_model;
                   sentiment_classifier := no_model;
                   spam_patterns := [];
                   thresholds := ∅ |} "hello")
      as (_ & _ & Hraise & _).
    destruct (Hraise (KeyError "toxicity_high") eq_refl)
      as (Hcls & Hconf & _ & _ & _ & Herr).
    exact (conj Hcls (conj Hconf Herr)).
Defined.

(** * Part III: further properties of the classifier *)

(** ** Toxicity and sentiment scoring *)

Lemma detect_toxicity_range self content :
  0 <= score (_detect_toxicity self content) <= 1.
Proof.
  unfold _detect_toxicity.
  destruct (toxicity_classifier self (prefix 512 content)) as [result | e];
    cbn [score]; [| lra].
  destruct (bool_decide _); minmax; lra.
Qed.

(** X1. [_detect_toxicity] keeps the label of the model and normalises
    its score.  A score in [0,1] is kept for the labels 'toxic' and
    'negative' in any letter case and replaced by its complement for
    every other label; a score below 0 or above 1 ends, after that, at
    the nearer end of [0,1]; so the toxicity score lies in [0,1].  A
    model that raises gives 'unknown' with score 0.  Every case is
    guarded by a comparison on the score of the model: a score that is
    not a number fails them all (in the source it passes [max] and [min]
    unchanged) and is outside this statement. *)
Theorem detect_toxicity_normalises self content :
  (forall result,
     toxicity_classifier self (prefix 512 content) = Ok result ->
     label (_detect_toxicity self content) = label result /\
     (0 <= score result <= 1 ->
      0 <= score (_detect_toxicity self content) <= 1 /\
      (lower (label result) = "toxic" \/ lower (label result) = "negative" ->
       score (_detect_toxicity self content) == score result) /\
      (lower (label result) <> "toxic" ->
       lower (label result) <> "negative" ->
       score (_detect_toxicity self content) == 1 - score result)) /\
     (score result < 0 ->
      (lower (label result) = "toxic" \/ lower (label result) = "negative" ->
       score (_detect_toxicity self content) == 0) /\
      (lower (label result) <> "toxic" ->
       lower (label result) <> "negative" ->
       score (_detect_toxicity self content) == 1)) /\
     (1 < score result ->
      (lower (label result) = "toxic" \/ lower (label result) = "negative" ->
       score (_detect_toxicity self content) == 1) /\
      (lower (label result) <> "toxic" ->
       lower (label result) <> "negative" ->
       score (_detect_toxicity self content) == 0))) /\
  (forall e,
     toxicity_classifier self (prefix 512 content) = Raise e ->
     _detect_toxicity self content = {| label := "unknown"; score := 0.0 |}).
Proof.
  split.
  - intros result Hrun. unfold _detect_toxicity. rewrite Hrun.
    cbn [label score].
    assert (Htoxic :
      lower (label result) = "toxic" \/ lower (label result) = "negative" ->
      bool_decide (lower (label result) ∈ ["toxic"; "negative"]) = true).
    { intros [-> | ->]; reflexivity. }
    assert (Hother :
      lower (label result) <> "toxic" -> lower (label result) <> "negative" ->
      bool_decide (lower (label result) ∈ ["toxic"; "negative"]) = false).
    { intros H1 H2. apply bool_decide_eq_false_2. intros Hin.
      repeat (apply elem_of_cons in Hin as [? | Hin]; [contradiction |]).
      now apply elem_of_nil in Hin. }
    split; [reflexivity |].
    split; [| split]; intros Hscore;
      repeat match goal with |- _ /\ _ => split end;
      try (intros H; rewrite (Htoxic H); minmax; lra);
      try (intros H1 H2; rewrite (Hother H1 H2); minmax; lra);
      destruct (bool_decide _); minmax; lra.
  - intros e Hrun. unfold _detect_toxicity. now rewrite Hrun.
Qed.

(** A fallback sentiment model that answers POSITIVE with 0.75: the
    toxicity is the complement, 0.25. *)
Lemma positive_label_is_complemented :
  let self := init (constant_model "POSITIVE" 0.75) no_model in
  (toxicity_classifier self (prefix 512 "hello")
   = Ok {| label := "POSITIVE"; score := 0.75 |} /\
   0 <= 0.75 <= 1 /\
   lower "POSITIVE" <> "toxic" /\ lower "POSITIVE" <> "negative") /\
  score (_detect_toxicity self "hello") == 0.25.
Proof.
  assert (Hrange : 0 <= 0.75 <= 1) by (split; compute; discriminate).
  assert (Htoxic : lower "POSITIVE" <> "toxic") by discriminate.
  assert (Hnegative : lower "POSITIVE" <> "negative") by discriminate.
  destruct (detect_toxicity_normalises
              (init (constant_model "POSITIVE" 0.75) no_model) "hello")
    as (Hok & _).
  destruct (Hok {| label := "POSITIVE"; score := 0.75 |} eq_refl)
    as (_ & Hin & _).
  destruct (Hin Hrange) as (_ & _ & Hcomplement).
  exact (conj (conj eq_refl (conj Hrange (conj Htoxic Hnegative)))
           (Hcomplement Htoxic Hnegative)).
Defined.

(** ** Threshold updates *)

Lemma update_thresholds_configured self new :
  configured self -> configured (update_thresholds self new).
Proof.
  intros Hself k Hk. rewrite thresholds_update.
  destruct (new !! k); [eauto | now apply Hself].
Qed.

Lemma tuned_configured updates : forall self,
  configured self -> configured (tuned self updates).
Proof.
  induction updates as [| new updates IH]; intros self Hself; [exact Hself |].
  apply IH, update_thresholds_configured, Hself.
Qed.

Lemma init_configured tm sm : configured (init tm sm).
Proof.
  intros k Hk.
  repeat (apply elem_of_cons in Hk as [-> | Hk]; [now eexists |]).
  now apply elem_of_nil in Hk.
Qed.

(** A configured classifier runs the rules with its four thresholds. *)
Lemma configured_rules self :
  configured self ->
  exists a b c d,
    thresholds self !! "toxicity_high" = Some a /\
    thresholds self !! "toxicity_medium" = Some b /\
    thresholds self !! "spam_high" = Some c /\
    thresholds self !! "confidence_low" = Some d /\
    forall tox spam sent,
      _determine_classification self tox spam sent
      = Ok (Spec.classify a b c 0.5 d tox spam).
Proof.
  intros H.
  destruct (H "toxicity_high") as [a Ha];
    [repeat first [apply list_elem_of_here | apply list_elem_of_further] |].
  destruct (H "toxicity_medium") as [b Hb];
    [repeat first [apply list_elem_of_here | apply list_elem_of_further] |].
  destruct (H "spam_high") as [c Hc];
    [repeat first [apply list_elem_of_here | apply list_elem_of_further] |].
  destruct (H "confidence_low") as [d Hd];
    [repeat first [apply list_elem_of_here | apply list_elem_of_further] |].
  exists a, b, c, d. repeat split; try assumption.
  intros. now apply determine_classification_rules.
Qed.

(** X2. [update_thresholds] only adds and overwrites entries, so after
    any series of updates of the initial classifier the four thresholds
    are still configured: the rules always return a verdict, and
    [_classify_sync] never takes its error path. *)
Theorem tuned_classifier_never_raises tm sm updates content :
  let self := tuned (init tm sm) updates in
  configured self /\
  (forall tox spam sent,
     exists verdict, _determine_classification self tox spam sent = Ok verdict) /\
  Result.error (_classify_sync self content) = None /\
  Result.content_length (_classify_sync self content) = Some (len content).
Proof.
  cbv zeta.
  pose proof (tuned_configured updates _ (init_configured tm sm)) as Hconf.
  destruct (configured_rules _ Hconf) as (a & b & c & d & _ & _ & _ & _ & Hrules).
  split; [exact Hconf |]. split; [eauto |].
  destruct (Spec.classify a b c 0.5 d
              (score (_detect_toxicity (tuned (init tm sm) updates) content))
              (_detect_spam (tuned (init tm sm) updates) content))
    as [cls conf] eqn:E.
  rewrite (classify_sync_ok _ _ cls conf) by (rewrite Hrules, E; reflexivity).
  split; reflexivity.
Qed.

(** X3. Two updates in a row are one update with the second map laid
    over the first, an update applied twice is the update applied once,
    and an entry of an update is what the classifier reads afterwards. *)
Theorem update_thresholds_composes self first second :
  update_thresholds (update_thresholds self first) second
  = update_thresholds self (second ∪ first) /\
  update_thresholds (update_thresholds self first) first
  = update_thresholds self first /\
  (forall k v,
     second !! k = Some v ->
     thresholds (update_thresholds (update_thresholds self first) second) !! k
     = Some v) /\
  (forall k,
     second !! k = None ->
     thresholds (update_thresholds (update_thresholds self first) second) !! k
     = thresholds (update_thresholds self first) !! k).
Proof.
  repeat apply conj.
  - unfold update_thresholds. cbn. f_equal. apply (assoc_L (∪)).
  - unfold update_thresholds. cbn. f_equal.
    rewrite (assoc_L (∪)). f_equal. apply map_union_idemp.
  - intros k v Hk. rewrite thresholds_update. now rewrite Hk.
  - intros k Hk. rewrite (thresholds_update _ second). now rewrite Hk.
Qed.

(** ** The rules beyond rule 1 *)

(** X4. A threshold that is missing raises [KeyError] with its name, but
    only when the rules get as far as reading it: with no threshold at
    all every call raises for 'toxicity_high'; with 'toxicity_high'
    alone, a score at or above it is still 'toxic', and a score below it
    raises for 'spam_high'. *)
Theorem missing_threshold_raises_when_read self tox spam sent :
  (thresholds self !! "toxicity_high" = None ->
   _determine_classification self tox spam sent
   = Raise (KeyError "toxicity_high")) /\
  (forall a,
     thresholds self !! "toxicity_high" = Some a ->
     thresholds self !! "spam_high" = None ->
     (a <= tox ->
      _determine_classification self tox spam sent = Ok ("toxic", tox)) /\
     (tox < a ->
      _determine_classification self tox spam sent
      = Raise (KeyError "spam_high"))) /\
  (forall a c,
     thresholds self !! "toxicity_high" = Some a ->
     thresholds self !! "spam_high" = Some c ->
     thresholds self !! "toxicity_medium" = None ->
     tox < a -> spam < c ->
     _determine_classification self tox spam sent
     = Raise (KeyError "toxicity_medium")) /\
  (forall a b c,
     thresholds self !! "toxicity_high" = Some a ->
     thresholds self !! "spam_high" = Some c ->
     thresholds self !! "toxicity_medium" = Some b ->
     thresholds self !! "confidence_low" = None ->
     tox < a -> spam < c -> tox < b -> spam < 0.5 ->
     _determine_classification self tox spam sent
     = Raise (KeyError "confidence_low")).
Proof.
  unfold _determine_classification, getitem, mbind, res_bind, Py.bind.
  repeat apply conj.
  - intros ->. reflexivity.
  - intros a -> ->. split; intros H.
    + apply ge_true in H. now rewrite H.
    + apply ge_false in H. now rewrite H.
  - intros a c -> -> -> Ha Hc.
    apply ge_false in Ha, Hc. now rewrite Ha, Hc.
  - intros a b c -> -> -> -> Ha Hc Hb Hs.
    apply ge_false in Ha, Hc, Hb, Hs. now rewrite Ha, Hc, Hb, Hs.
Qed.

(** X5. Rule 2: a spam score at or above [spam_high] with a toxicity
    below [toxicity_high] is 'spam', with the spam score as the
    confidence, whatever the toxicity below the threshold is. *)
Theorem high_spam_is_spam self tox spam sent a c :
  thresholds self !! "toxicity_high" = Some a ->
  thresholds self !! "spam_high" = Some c ->
  tox < a -> c <= spam ->
  _determine_classification self tox spam sent = Ok ("spam", spam).
Proof.
  intros Ha Hc Htox Hspam.
  unfold _determine_classification.
  rewrite (getitem_Some _ _ _ Ha), (getitem_Some _ _ _ Hc).
  unfold mbind, res_bind, Py.bind.
  apply ge_false in Htox. apply ge_true in Hspam.
  now rewrite Htox, Hspam.
Qed.

Lemma spam_wins_over_medium_toxicity :
  let self := init no_model no_model in
  (thresholds self !! "toxicity_high" = Some 0.8 /\
   thresholds self !! "spam_high" = Some 0.7 /\
   0.65 < 0.8 /\ 0.7 <= 0.75) /\
  _determine_classification self 0.65 0.75 neutral = Ok ("spam", 0.75).
Proof.
  assert (Htox : 0.65 < 0.8) by reflexivity.
  assert (Hspam : 0.7 <= 0.75) by (compute; discriminate).
  exact (conj (conj eq_refl (conj eq_refl (conj Htox Hspam)))
           (high_spam_is_spam (init no_model no_model) 0.65 0.75 neutral
              0.8 0.7 eq_refl eq_refl Htox Hspam)).
Defined.

(** X6. With the initial thresholds, where content is 'acceptable': with
    a toxicity score from 0.11 up to, but not, 0.6 and a spam score from
    0.11 up to, but not, 0.5 it is, with a confidence of at least 0.6;
    with a toxicity of 0.6 or more, a spam score of 0.5 or more, or
    either score at or below 0.09 it is not.  Between 0.09 and 0.11 the
    confidence is within a hundredth of 0.6, and the statement leaves
    open which way the comparison goes: there the rounding of the float
    subtraction decides in the source. *)
Theorem acceptance_region tm sm tox spam sent :
  (0.11 <= tox < 0.6 -> 0.11 <= spam < 0.5 ->
   exists conf,
     _determine_classification (init tm sm) tox spam sent
     = Ok ("acceptable", conf) /\
     0.6 <= conf <= 1) /\
  (0.6 <= tox \/ 0.5 <= spam \/ tox <= 0.09 \/ spam <= 0.09 ->
   forall conf,
     _determine_classification (init tm sm) tox spam sent
     <> Ok ("acceptable", conf)).
Proof.
  rewrite (determine_classification_rules _ _ _ _ 0.8 0.6 0.7 0.6)
    by reflexivity.
  unfold Spec.classify, Spec.confidence. split.
  - intros Ht Hs. cmp; try (exfalso; lra);
      first [eexists; split; [reflexivity |] | exfalso];
      repeat match goal with H : context [Qmax _ _] |- _ => revert H end;
      minmax; lra.
  - intros H conf. cmp; try discriminate; intros _;
      repeat match goal with H : context [Qmax _ _] |- _ => revert H end;
      minmax; lra.
Qed.

(** ** The result of a classification *)

(** The confidence of a verdict on scores in [0,1], configured or not. *)
Lemma determine_classification_confidence self tox spam sent cls conf :
  0 <= tox <= 1 -> 0 <= spam <= 1 ->
  _determine_classification self tox spam sent = Ok (cls, conf) ->
  0 <= conf <= 1.
Proof.
  intros Ht Hs.
  pose proof (confidence_range tox spam (proj1 Ht) (proj1 Hs)) as Hconf.
  unfold Spec.confidence in Hconf.
  unfold _determine_classification, getitem, mbind, res_bind, Py.bind.
  set (confidence := 1.0 - Qmax _ _) in *.
  repeat match goal with
  | |- context [thresholds self !! ?k] =>
      destruct (thresholds self !! k); try discriminate
  end;
  repeat match goal with
  | |- context [if ge ?x ?y then _ else _] => destruct (ge x y)
  | |- context [if lt ?x ?y then Ok _ else _] => destruct (lt x y)
  end;
  intros [= <- <-]; try lra; minmax; lra.
Qed.

Lemma detect_spam_range self content : 0 <= _detect_spam self content <= 1.
Proof.
  pose proof (pattern_score_range self content).
  pose proof (caps_score_range content).
  pose proof (punct_score_range content).
  pose proof (repetition_score_range content).
  rewrite detect_spam_sum. minmax; lra.
Qed.

(** X7. Every result of [_classify_sync], whatever the models answer and
    whatever thresholds are configured or missing, carries one of the
    four classifications and a confidence and a spam score in [0,1];
    its toxicity score is in [0,1] when the toxicity model raises or
    answers a probability, a score in [0,1]. *)
Theorem classification_result_in_range self content :
  let r := _classify_sync self content in
  Result.classification r ∈ ["acceptable"; "needs_review"; "toxic"; "spam"] /\
  0 <= Result.confidence r <= 1 /\
  0 <= Result.spam_score r <= 1 /\
  ((forall result,
      toxicity_classifier self (prefix 512 content) = Ok result ->
      0 <= score result <= 1) ->
   0 <= Result.toxicity_score r <= 1).
Proof.
  cbv zeta. split; [apply classify_sync_classification |].
  pose proof (detect_toxicity_range self content) as Htox.
  pose proof (detect_spam_range self content) as Hspam.
  destruct (_determine_classification self
              (score (_detect_toxicity self content))
              (_detect_spam self content) (_analyze_sentiment self content))
    as [[cls conf] | e] eqn:E.
  - rewrite (classify_sync_ok _ _ _ _ E). cbn.
    split; [| split; [assumption | intros _; assumption]].
    exact (determine_classification_confidence _ _ _ _ _ _ Htox Hspam E).
  - rewrite (classify_sync_raise _ _ _ E). cbn. repeat split; lra.
Qed.

(** A toxicity model that answers 0.9: every number of the result is in
    [0,1]. *)
Lemma toxic_result_in_range :
  let self := init (constant_model "toxic" 0.9) no_model in
  (forall result,
     toxicity_classifier self (prefix 512 "hello") = Ok result ->
     0 <= score result <= 1) /\
  0 <= Result.toxicity_score (_classify_sync self "hello") <= 1.
Proof.
  assert (Hmodel :
    forall result,
      toxicity_classifier (init (constant_model "toxic" 0.9) no_model)
        (prefix 512 "hello") = Ok result ->
      0 <= score result <= 1).
  { intros result [= <-]. split; compute; discriminate. }
  destruct (classification_result_in_range
              (init (constant_model "toxic" 0.9) no_model) "hello")
    as (_ & _ & _ & Htox).
  exact (conj Hmodel (Htox Hmodel)).
Defined.

(** X8. The sentiment analysis never influences the verdict: replacing
    the sentiment model by any other leaves the classification, the
    confidence, the two scores and the reported threshold of every text
    unchanged. *)
Theorem sentiment_never_changes_the_verdict self sentiment_model content :
  let other :=
    {| model_version := model_version self;
       toxicity_classifier := toxicity_classifier self;
       sentiment_classifier := sentiment_model;
       spam_patterns := spam_patterns self;
       thresholds := thresholds self |} in
  Result.classification (_classify_sync other content)
  = Result.classification (_classify_sync self content) /\
  Result.confidence (_classify_sync other content)
  = Result.confidence (_classify_sync self content) /\
  Result.toxicity_score (_classify_sync other content)
  = Result.toxicity_score (_classify_sync self content) /\
  Result.spam_score (_classify_sync other content)
  = Result.spam_score (_classify_sync self content) /\
  Result.threshold (_classify_sync other content)
  = Result.threshold (_classify_sync self content).
Proof.
  cbv zeta. unfold _classify_sync.
  match goal with
  | |- context [_determine_classification ?o ?t ?s ?sent] =>
      change (_determine_classification o t s sent)
        with (_determine_classification self
                (score (_detect_toxicity self content))
                (_detect_spam self content)
                (_analyze_sentiment self content))
  end.
  destruct (_determine_classification self
              (score (_detect_toxicity self content))
              (_detect_spam self content) (_analyze_sentiment self content))
    as [[cls conf] | e]; repeat split.
Qed.

(** The pattern contribution is nothing or at least 0.15, and so is the
    spam score: its smallest step is one matching pattern or a run of
    punctuation. *)
Lemma pattern_score_steps self content :
  pattern_score self content == 0 \/ 0.15 <= pattern_score self content.
Proof.
  unfold pattern_score.
  destruct (Nat.ltb_spec 0 (pattern_matches self content)) as [H | H];
    [right | left; reflexivity].
  pose proof (float_le 1 _ H) as Hf. change (float 1) with 1 in Hf.
  minmax; lra.
Qed.

Lemma detect_spam_steps self content :
  _detect_spam self content == 0 \/ 0.15 <= _detect_spam self content.
Proof.
  pose proof (pattern_score_steps self content) as Hp.
  pose proof (pattern_score_range self content) as Hr.
  rewrite detect_spam_sum.
  unfold caps_score, punct_score, repetition_score.
  repeat match goal with
  | |- context [if ?b then _ else _] => destruct b
  end;
  destruct Hp; minmax; first [left; lra | right; lra].
Qed.

(** Under the initial thresholds a spam score below 0.1 leaves two
    verdicts. *)
Lemma clean_verdict tox spam :
  spam < 0.1 ->
  fst (Spec.classify 0.8 0.6 0.7 0.5 0.6 tox spam) = "needs_review"
  \/ fst (Spec.classify 0.8 0.6 0.7 0.5 0.6 tox spam) = "toxic".
Proof.
  intros Hclean. unfold Spec.classify, Spec.confidence.
  cmp; cbn [fst];
    first
      [ left; reflexivity | right; reflexivity
      | exfalso;
        repeat match goal with H : context [Qmax _ _] |- _ => revert H end;
        minmax; lra ].
Qed.

(** X9. With the initial thresholds a text that sets off none of the
    spam checks is never 'acceptable', whatever the models answer: a
    spam score below 0.1 is 0, since a check adds 0.15 or more; the
    distance of 0 from 0.5 then keeps the confidence of rule 5 at 0.5 or
    less, under the threshold of 0.6, and the text is sent to review, or
    rejected as toxic. *)
Theorem clean_text_is_never_acceptable tm sm content :
  _detect_spam (init tm sm) content < 0.1 ->
  let r := _classify_sync (init tm sm) content in
  _detect_spam (init tm sm) content == 0 /\
  Result.classification r <> "acceptable" /\
  (Result.classification r = "needs_review"
   \/ Result.classification r = "toxic").
Proof.
  intros Hclean. cbv zeta.
  assert (Hzero : _detect_spam (init tm sm) content == 0).
  { destruct (detect_spam_steps (init tm sm) content); [assumption | lra]. }
  split; [exact Hzero |].
  pose proof (determine_classification_rules (init tm sm)
                (score (_detect_toxicity (init tm sm) content))
                (_detect_spam (init tm sm) content)
                (_analyze_sentiment (init tm sm) content)
                0.8 0.6 0.7 0.6 eq_refl eq_refl eq_refl eq_refl) as E.
  pose proof (clean_verdict (score (_detect_toxicity (init tm sm) content))
                _ Hclean) as Hverdict.
  destruct (Spec.classify 0.8 0.6 0.7 0.5 0.6
              (score (_detect_toxicity (init tm sm) content))
              (_detect_spam (init tm sm) content)) as [cls conf].
  rewrite (classify_sync_ok _ _ _ _ E).
  cbn [Result.classification fst] in *.
  split; [| exact Hverdict].
  destruct Hverdict as [-> | ->]; discriminate.
Qed.

(** A plain question, with a toxicity model that finds it harmless. *)
Lemma plain_question_is_never_acceptable :
  let self := init (constant_model "toxic" 0.3) no_model in
  _detect_spam self "What are the operating hours?" < 0.1 /\
  Result.classification (_classify_sync self "What are the operating hours?")
  <> "acceptable".
Proof.
  assert (Hclean :
    _detect_spam (init (constant_model "toxic" 0.3) no_model)
      "What are the operating hours?" < 0.1) by reflexivity.
  exact (conj Hclean
           (proj1 (proj2
              (clean_text_is_never_acceptable (constant_model "toxic" 0.3)
                 no_model "What are the operating hours?" Hclean)))).
Defined.

(** ** Pattern matches inside a longer text *)

Lemma stable_class f : stable (Re.class f).
Proof.
  intros [| c s] k k' q Hk; cbn; [discriminate |].
  destruct (f c); [apply Hk | discriminate].
Qed.

Lemma stable_empty : stable Re.empty.
Proof. intros s k k' q Hk. apply Hk. Qed.

Lemma stable_seq p1 p2 : stable p1 -> stable p2 -> stable (Re.seq p1 p2).
Proof.
  intros H1 H2 s k k' q Hk. unfold Re.seq. apply H1.
  intros r. apply H2, Hk.
Qed.

Lemma stable_opt p : stable p -> stable (Re.opt p).
Proof.
  intros Hp s k k' q Hk. unfold Re.opt.
  destruct (p s k) eqn:E.
  - intros _. now rewrite (Hp s k k' q Hk E).
  - intros H. rewrite (Hk s H). now destruct (p (s ++ q) k').
Qed.

(** A continuation that accepts the input lets [f*] match nothing. *)
Lemma star_skip f s (k : list ascii -> bool) :
  k s = true -> Re.star f s k = true.
Proof.
  intros H. destruct s as [| c s]; cbn; [exact H |].
  rewrite H. now destruct (if f c then Re.star f s k else false).
Qed.

Lemma stable_star f : stable (Re.star f).
Proof.
  intros s. induction s as [| c s IH]; intros k k' q Hk; cbn.
  - intros H. apply star_skip. exact (Hk [] H).
  - destruct (f c).
    + destruct (Re.star f s k) eqn:E.
      * intros _. now rewrite (IH k k' q Hk E).
      * intros H. apply Hk in H. cbn in H. rewrite H.
        now destruct (Re.star f (s ++ q) k').
    + intros H. exact (Hk (c :: s) H).
Qed.

Lemma stable_plus f : stable (Re.plus f).
Proof. apply stable_seq; [apply stable_class | apply stable_star]. Qed.

Lemma stable_literal lit t : stable (Re.literal lit t).
Proof.
  induction t as [| a t IH]; cbn.
  - apply stable_empty.
  - apply stable_seq; [apply stable_class | exact IH].
Qed.

Lemma stable_copies n f : stable (Re.copies n f).
Proof.
  induction n as [| n IH]; cbn.
  - apply stable_star.
  - apply stable_seq; [apply stable_class | exact IH].
Qed.

Lemma stable_repeated n : stable (Re.repeated n).
Proof.
  intros [| c s] k k' q Hk; cbn; [discriminate |].
  destruct (Re.dot c); [| discriminate].
  now apply stable_copies.
Qed.

Lemma stable_url : stable url.
Proof.
  unfold url.
  apply stable_seq; [apply stable_literal |].
  apply stable_seq; [apply stable_opt, stable_class |].
  apply stable_seq; [apply stable_literal | apply stable_plus].
Qed.

(** The nine patterns of the classifier are stable. *)
Lemma spam_patterns_stable tm sm : Forall stable (spam_patterns (init tm sm)).
Proof.
  unfold init. cbn [spam_patterns].
  do 6 (constructor; [apply stable_literal |]).
  constructor.
  { apply stable_seq; [apply stable_literal |].
    apply stable_seq; [apply stable_star | apply stable_literal]. }
  constructor.
  { apply stable_seq; [apply stable_url |].
    apply stable_seq; [apply stable_star |].
    apply stable_seq; [apply stable_url |].
    apply stable_seq; [apply stable_star | apply stable_url]. }
  constructor; [apply stable_repeated | constructor].
Qed.

(** A match found in a text is found in the text with more in front of it
    and behind it. *)
Lemma search_from_behind p s q :
  stable p -> Re.search_from p s = true -> Re.search_from p (s ++ q) = true.
Proof.
  intros Hp. induction s as [| c s IH]; cbn.
  - destruct (p [] (fun _ => true)) eqn:E; [| discriminate]. intros _.
    assert (H : p q (fun _ => true) = true)
      by (apply (Hp [] (fun _ => true) (fun _ => true) q); [easy | exact E]).
    destruct q; cbn; now rewrite H.
  - destruct (p (c :: s) (fun _ => true)) eqn:E.
    + intros _.
      apply (Hp _ _ (fun _ => true) q (fun _ _ => eq_refl)) in E.
      cbn in E. now rewrite E.
    + intros H. rewrite (IH H).
      now destruct (p (c :: s ++ q) (fun _ => true)).
Qed.

Lemma search_from_in_front p s q :
  Re.search_from p s = true -> Re.search_from p (q ++ s) = true.
Proof.
  intros H. induction q as [| c q IH]; cbn; [exact H |].
  rewrite IH. now destruct (p (c :: q ++ s) (fun _ => true)).
Qed.

Lemma list_ascii_of_string_append a b :
  list_ascii_of_string (a +:+ b)
  = list_ascii_of_string a ++ list_ascii_of_string b.
Proof.
  induction a as [| c a IH]; [reflexivity |].
  change (String c a +:+ b) with (String c (a +:+ b)). cbn. now f_equal.
Qed.

Lemma search_inside p before text behind :
  stable p ->
  Re.search p text = true ->
  Re.search p (before +:+ text +:+ behind) = true.
Proof.
  intros Hp H. unfold Re.search in *.
  rewrite !list_ascii_of_string_append.
  now apply search_from_in_front, search_from_behind.
Qed.

(** Counting the matching patterns, from any start. *)
Lemma count_matches_mono patterns text longer :
  Forall (fun p => Re.search p text = true -> Re.search p longer = true)
    patterns ->
  forall n m, (n <= m)%nat ->
  (fold_left
     (fun pattern_matches pattern =>
        if Re.search pattern text
        then (pattern_matches + 1)%nat else pattern_matches) patterns n
   <= fold_left
        (fun pattern_matches pattern =>
           if Re.search pattern longer
           then (pattern_matches + 1)%nat else pattern_matches) patterns m)%nat.
Proof.
  induction 1 as [| p patterns Hp _ IH]; intros n m Hnm; cbn; [exact Hnm |].
  apply IH.
  destruct (Re.search p text); [rewrite Hp by reflexivity; lia |].
  destruct (Re.search p longer); lia.
Qed.

(** X10. Text added in front of a text or behind it never loses a
    pattern match: the number of matching spam patterns and with it the
    pattern contribution to the spam score never decrease (the other
    checks may still lower the total). *)
Theorem surrounding_text_keeps_pattern_matches tm sm before text behind :
  (forall p,
     p ∈ spam_patterns (init tm sm) ->
     Re.search p text = true ->
     Re.search p (before +:+ text +:+ behind) = true) /\
  (pattern_matches (init tm sm) text
   <= pattern_matches (init tm sm) (before +:+ text +:+ behind))%nat /\
  pattern_score (init tm sm) text
  <= pattern_score (init tm sm) (before +:+ text +:+ behind).
Proof.
  pose proof (spam_patterns_stable tm sm) as Hstable.
  assert (Hkeep : Forall (fun p =>
            Re.search p text = true ->
            Re.search p (before +:+ text +:+ behind) = true)
            (spam_patterns (init tm sm))).
  { eapply Forall_impl; [exact Hstable |].
    intros p Hp. now apply search_inside. }
  assert (Hcount : (pattern_matches (init tm sm) text
                    <= pattern_matches (init tm sm)
                         (before +:+ text +:+ behind))%nat)
    by (apply count_matches_mono; [exact Hkeep | lia]).
  split; [| split; [exact Hcount | now apply pattern_score_mono]].
  intros p Hin. rewrite Forall_forall in Hkeep. now apply Hkeep.
Qed.

(** The number of matching patterns is at most the number of patterns. *)
Lemma count_matches_bound patterns text : forall n,
  (fold_left
     (fun pattern_matches pattern =>
        if Re.search pattern text
        then (pattern_matches + 1)%nat else pattern_matches) patterns n
   <= n + length patterns)%nat.
Proof.
  induction patterns as [| p patterns IH]; intros n; cbn; [lia |].
  specialize (IH (if Re.search p text then (n + 1)%nat else n)).
  destruct (Re.search p text); lia.
Qed.

(** X11. At most nine patterns match, the pattern contribution is 0.15
    for each of the first three and reaches its cap of 0.5 with the
    fourth: from four matching patterns on, more matches add nothing. *)
Theorem pattern_contribution_saturates tm sm content :
  let n := pattern_matches (init tm sm) content in
  (n <= 9)%nat /\
  ((n <= 3)%nat -> pattern_score (init tm sm) content == float n * 0.15) /\
  ((4 <= n)%nat -> pattern_score (init tm sm) content == 0.5).
Proof.
  cbv zeta. split; [| split].
  - exact (count_matches_bound (spam_patterns (init tm sm)) content 0).
  - intros Hn. unfold pattern_score.
    destruct (pattern_matches (init tm sm) content) as [| [| [| [| n]]]];
      try lia; vm_compute; reflexivity.
  - intros Hn. unfold pattern_score.
    pose proof (float_le 4 _ Hn) as Hfloat.
    change (float 4) with 4 in Hfloat.
    destruct (Nat.ltb_spec 0 (pattern_matches (init tm sm) content));
      [| lia].
    minmax; lra.
Qed.

(** * Part IV: further properties of the request handler *)

(** ** Priorities *)

(** X12. The priority is monotone: a result with at least the toxicity
    and at most the confidence of another never gets a lower priority. *)
Theorem calculate_priority_monotone (r r' : Result.t) :
  Result.toxicity_score r <= Result.toxicity_score r' ->
  Result.confidence r' <= Result.confidence r ->
  (calculate_priority r <= calculate_priority r')%Z.
Proof.
  intros Htox Hconf. unfold calculate_priority.
  cmp; cbn [orb]; try lia; exfalso; lra.
Qed.

Lemma calculate_priority_monotone_example :
  (Result.toxicity_score (scored 0.35 0.9)
   <= Result.toxicity_score (scored 0.55 0.65) /\
   Result.confidence (scored 0.55 0.65)
   <= Result.confidence (scored 0.35 0.9)) /\
  (calculate_priority (scored 0.35 0.9)
   <= calculate_priority (scored 0.55 0.65))%Z /\
  calculate_priority (scored 0.35 0.9) = 3%Z /\
  calculate_priority (scored 0.55 0.65) = 4%Z.
Proof.
  assert (Htox : Result.toxicity_score (scored 0.35 0.9)
                 <= Result.toxicity_score (scored 0.55 0.65))
    by (vm_compute; discriminate).
  assert (Hconf : Result.confidence (scored 0.55 0.65)
                  <= Result.confidence (scored 0.35 0.9))
    by (vm_compute; discriminate).
  exact (conj (conj Htox Hconf)
           (conj (calculate_priority_monotone _ _ Htox Hconf)
              (conj eq_refl eq_refl))).
Defined.

(** What the initial classifier sends to review gets priority 4 or 5. *)
Lemma needs_review_priority tm sm content :
  let r := classify (init tm sm) content in
  Result.classification r = "needs_review" ->
  calculate_priority r = 4%Z \/ calculate_priority r = 5%Z.
Proof.
  cbv zeta. unfold classify.
  destruct (Spec.classify 0.8 0.6 0.7 0.5 0.6
              (score (_detect_toxicity (init tm sm) content))
              (_detect_spam (init tm sm) content))
    as [cls conf] eqn:E.
  rewrite (classify_sync_ok _ _ cls conf)
    by (rewrite (determine_classification_rules _ _ _ _ 0.8 0.6 0.7 0.6)
          by reflexivity; now rewrite E).
  cbn [Result.classification]. intros ->.
  unfold calculate_priority.
  cbn [Result.toxicity_score Result.confidence].
  revert E. unfold Spec.classify.
  set (tox := score (_detect_toxicity (init tm sm) content)).
  set (spam := _detect_spam (init tm sm) content).
  destruct (ge tox 0.8) eqn:E1; [discriminate |].
  destruct (ge spam 0.7) eqn:E2; [discriminate |].
  apply ge_false in E1, E2.
  destruct (ge tox 0.6) eqn:E3.
  { apply ge_true in E3. intros [= <-]. cmp; cbn [orb]; auto; exfalso;
      revert E0; minmax; lra. }
  destruct (ge spam 0.5) eqn:E4.
  { apply ge_true in E4. intros [= <-]. cmp; cbn [orb]; auto; exfalso;
      repeat match goal with H : context [Qmax _ _] |- _ => revert H end;
      minmax; lra. }
  destruct (lt (Spec.confidence tox spam) 0.6) eqn:E5; [| discriminate].
  intros [= <-]. rewrite E5, orb_true_r. now right.
Qed.

(** X13. With the initial thresholds, every entry a request adds to the
    moderation queue is pending and has priority 4 or 5: the levels 2
    and 3 (and 1) never reach the queue.  A request adds at most one
    entry. *)
Theorem queued_entries_have_priority_4_or_5 tm sm content_id submission w :
  let w' := snd (submit_content (init tm sm) content_id submission w) in
  Db.moderation_queue (db w') = Db.moderation_queue (db w)
  \/ exists entry,
       Db.moderation_queue (db w') = Db.moderation_queue (db w) ++ [entry] /\
       (Db.ModerationQueue.priority entry = 4%Z
        \/ Db.ModerationQueue.priority entry = 5%Z) /\
       Db.ModerationQueue.status entry = "pending" /\
       Db.ModerationQueue.content_id entry = content_id /\
       Db.ModerationQueue.author_id entry
       = ContentSubmission.author_id submission.
Proof.
  cbv zeta.
  pose proof (needs_review_priority tm sm
                (ContentSubmission.content submission)) as Hprio.
  pose proof (classify_classification (init tm sm)
                (ContentSubmission.content submission)) as Hcls.
  cbv zeta in Hcls, Hprio. unfold_handler.
  destruct Hcls as [H | [H | [H | H]]]; rewrite H in *;
    repeat step; cbn; auto;
    right; eexists; (split; [reflexivity |]); cbn; auto.
Qed.

(** ** Storage *)

(** X14. [store_content] writes the content row and the audit entry
    together or not at all: it succeeds exactly when both statements
    succeed, and then each table has one more row; otherwise it raises
    and leaves the database as it was. *)
Theorem store_content_is_atomic content_id submission classification action w :
  (failing w insert_content = None /\ failing w insert_audit_log = None /\
   exists w' row,
     store_content content_id submission classification action w
     = (Ok (), w') /\
     Db.content (db w') = Db.content (db w) ++ [row] /\
     Db.Content.content_id row = content_id /\
     Db.Content.classification row = Result.classification classification /\
     Db.Content.action_taken row = Action.action action /\
     Db.audit_log (db w')
     = Db.audit_log (db w)
       ++ [ {| Db.AuditLog.content_id := content_id;
               Db.AuditLog.event :=
                 Db.AuditLog.content_classified classification action |} ])
  \/ ((failing w insert_content <> None \/ failing w insert_audit_log <> None) /\
      exists msg,
        store_content content_id submission classification action w
        = (Raise (StorageError msg), w)).
Proof.
  unfold_handler.
  repeat step; cbn;
    first
      [ solve [left; do 2 (split; [reflexivity |]);
               eexists _, _; repeat split]
      | right; split;
        [first [left; discriminate | right; discriminate] | eauto] ].
Qed.

(** X15. When every statement succeeds, a request appends exactly one
    content row, one 'content_classified' audit entry and one metrics
    row, and they agree with the response: the same content id,
    classification, confidence and action. *)
Theorem successful_request_is_recorded classifier content_id submission w :
  (forall st, failing w st = None) ->
  exists resp w' row action,
    submit_content classifier content_id submission w = (Ok resp, w') /\
    Db.content (db w') = Db.content (db w) ++ [row] /\
    Db.Content.content_id row = ClassificationResult.content_id resp /\
    Db.Content.classification row = ClassificationResult.classification resp /\
    Db.Content.confidence row = ClassificationResult.confidence resp /\
    Db.Content.action_taken row = ClassificationResult.action_taken resp /\
    Db.Content.content_text row = ContentSubmission.content submission /\
    Db.audit_log (db w')
    = Db.audit_log (db w)
      ++ [ {| Db.AuditLog.content_id := content_id;
              Db.AuditLog.event :=
                Db.AuditLog.content_classified
                  (classify classifier (ContentSubmission.content submission))
                  action |} ] /\
    Action.action action = ClassificationResult.action_taken resp /\
    Db.model_metrics (db w')
    = Db.model_metrics (db w)
      ++ [ {| Db.ModelMetrics.content_id := content_id;
              Db.ModelMetrics.confidence_score :=
                ClassificationResult.confidence resp;
              Db.ModelMetrics.classification :=
                ClassificationResult.classification resp |} ].
Proof.
  intros Hok.
  pose proof (classify_classification classifier
                (ContentSubmission.content submission)) as Hcls.
  cbv zeta in Hcls. unfold_handler.
  destruct Hcls as [H | [H | [H | H]]]; rewrite H in *;
    repeat step; try (rewrite Hok in *; discriminate);
    eexists _, _, _, _; (split; [reflexivity |]); cbn; rewrite ?H;
    repeat split.
Qed.

Lemma successful_request_is_recorded_example :
  (forall st, failing healthy st = None) /\
  exists resp w' row action,
    submit_content (init (constant_model "toxic" 0.9) no_model) "id-1"
      hello healthy = (Ok resp, w') /\
    Db.content (db w') = Db.content (db healthy) ++ [row] /\
    Db.Content.classification row = "toxic" /\
    Db.Content.action_taken row = "rejected_toxic" /\
    Action.action action = "rejected_toxic".
Proof.
  assert (Hok : forall st, failing healthy st = None) by reflexivity.
  split; [exact Hok |].
  destruct (successful_request_is_recorded
              (init (constant_model "toxic" 0.9) no_model) "id-1" hello
              healthy Hok)
    as (resp & w' & row & action & Hrun & Hcontent & _ & Hcls & _ & Hact
        & _ & _ & Haction & _).
  exists resp, w', row, action.
  split; [exact Hrun |]. split; [exact Hcontent |].
  vm_compute in Hrun. injection Hrun as <- _.
  rewrite Hcls, Hact, Haction. repeat split.
Defined.

(** X16. The writes of the dispatcher are not rolled back when the
    request fails afterwards: if the queue entry, or the notification and
    the violation count, were written and the content row cannot be, the
    caller gets HTTP 500, nothing is stored in the content table, and
    the queue entry or the notification row stays. *)
Theorem dispatcher_writes_survive_a_failed_request
    classifier content_id submission w msg :
  let cls :=
    Result.classification
      (classify classifier (ContentSubmission.content submission)) in
  failing w insert_moderation_queue = None ->
  failing w insert_user_notifications = None ->
  failing w upsert_user_violations = None ->
  failing w insert_content = Some msg ->
  exists detail w',
    submit_content classifier content_id submission w
    = (Raise (HTTPException 500 detail), w') /\
    Db.content (db w') = Db.content (db w) /\
    (cls = "needs_review" ->
     exists entry,
       Db.moderation_queue (db w') = Db.moderation_queue (db w) ++ [entry]) /\
    (cls = "toxic" \/ cls = "spam" ->
     exists row,
       Db.user_notifications (db w') = Db.user_notifications (db w) ++ [row] /\
       Db.UserNotifications.author_id row
       = ContentSubmission.author_id submission /\
       Db.UserNotifications.notification_type row = cls /\
       Db.user_violations (db w')
         !! (ContentSubmission.author_id submission, cls)
       = Some (default 0 (Db.user_violations (db w)
                            !! (ContentSubmission.author_id submission, cls))
               + 1)%nat).
Proof.
  cbv zeta. intros Hqueue Hnotify Hcount Hcontent.
  pose proof (classify_classification classifier
                (ContentSubmission.content submission)) as Hcls.
  cbv zeta in Hcls. unfold_handler.
  destruct Hcls as [H | [H | [H | H]]]; rewrite H in *;
    repeat step; try congruence;
    eexists _, _; (split; [reflexivity |]); cbn;
    (split; [reflexivity |]);
    (split; [intros Hc; try discriminate Hc; eexists; reflexivity |]);
    (intros [Hc | Hc]; try discriminate Hc);
    eexists; repeat split; apply upsert_user_violations_count.
Qed.

Lemma notified_but_not_stored :
  let w :=
    {| db := Db.empty;
       background_tasks := [];
       failing := fun st =>
         match st with
         | insert_content => Some "disk full"
         | _ => None
         end |} in
  let classifier := init (constant_model "toxic" 0.9) no_model in
  (failing w insert_moderation_queue = None /\
   failing w insert_user_notifications = None /\
   failing w upsert_user_violations = None /\
   failing w insert_content = Some "disk full") /\
  exists detail w',
    submit_content classifier "id-1" hello w
    = (Raise (HTTPException 500 detail), w') /\
    Db.content (db w') = [] /\
    length (Db.user_notifications (db w')) = 1%nat /\
    Db.user_violations (db w') !! ("u1", "toxic") = Some 1%nat.
Proof.
  cbv zeta. split; [repeat split |].
  destruct (dispatcher_writes_survive_a_failed_request
              (init (constant_model "toxic" 0.9) no_model) "id-1" hello
              {| db := Db.empty;
                 background_tasks := [];
                 failing := fun st =>
                   match st with
                   | insert_content => Some "disk full"
                   | _ => None
                   end |} "disk full" eq_refl eq_refl eq_refl eq_refl)
    as (detail & w' & Hrun & Hcontent & _ & Hnotified).
  destruct (Hnotified (or_introl eq_refl)) as (row & Hrows & _ & _ & Hcount).
  exists detail, w'. split; [exact Hrun |]. split; [exact Hcontent |].
  split; [rewrite Hrows; reflexivity | exact Hcount].
Defined.

(** X17. [log_error] never raises: when the statement succeeds the audit
    log has one more entry, the 'processing_error' entry of the request,
    and nothing else changes; when it fails nothing changes at all. *)
Theorem log_error_never_raises content_id error submission w :
  (failing w insert_error_audit_log = None /\
   log_error content_id error submission w
   = (Ok (),
      with_db
        (Db.insert_audit_log
           {| Db.AuditLog.content_id := content_id;
              Db.AuditLog.event :=
                Db.AuditLog.processing_error error submission |}) w) /\
   Db.audit_log (db (snd (log_error content_id error submission w)))
   = Db.audit_log (db w)
     ++ [ {| Db.AuditLog.content_id := content_id;
             Db.AuditLog.event :=
               Db.AuditLog.processing_error error submission |} ])
  \/ (failing w insert_error_audit_log <> None /\
      log_error content_id error submission w = (Ok (), w)).
Proof.
  unfold_handler. repeat step.
  - right. split; [discriminate | reflexivity].
  - left. repeat split.
Qed.

(** ** Nothing is ever removed *)

Lemma extends_db_refl d : extends_db d d.
Proof.
  repeat split; try (exists []; now rewrite app_nil_r).
  intros key n H. eauto.
Qed.

Lemma extends_db_trans d1 d2 d3 :
  extends_db d1 d2 -> extends_db d2 d3 -> extends_db d1 d3.
Proof.
  intros (Ha & Hb & Hc & Hd & He & Hf) (Ha' & Hb' & Hc' & Hd' & He' & Hf').
  repeat split;
    try (match goal with
         | H : exists l, ?f d2 = ?f d1 ++ l,
           H' : exists l, ?f d3 = ?f d2 ++ l |- exists l, ?f d3 = _ =>
             destruct H as [l E], H' as [l' E'];
             exists (l ++ l'); now rewrite E', E, app_assoc
         end).
  intros key n H.
  destruct (Hf key n H) as (m & Hm & Hnm).
  destruct (Hf' key m Hm) as (m' & Hm' & Hmm').
  exists m'. split; [exact Hm' | lia].
Qed.

Lemma grows_refl w : grows w w.
Proof.
  split; [apply extends_db_refl |].
  split; [exists []; now rewrite app_nil_r | reflexivity].
Qed.

Lemma grows_trans w1 w2 w3 : grows w1 w2 -> grows w2 w3 -> grows w1 w3.
Proof.
  intros (Hd & [l Hl] & Hf) (Hd' & [l' Hl'] & Hf').
  split; [eapply extends_db_trans; eassumption |].
  split; [exists (l ++ l'); now rewrite Hl', Hl, app_assoc | congruence].
Qed.

Lemma keeps_ret {A} (a : A) : keeps (mret a).
Proof. intros w. apply grows_refl. Qed.

Lemma keeps_raise {A} e : keeps (@raise A e).
Proof. intros w. apply grows_refl. Qed.

Lemma keeps_bind {A B} (m : M A) (k : A -> M B) :
  keeps m -> (forall a, keeps (k a)) -> keeps (m ≫= k).
Proof.
  intros Hm Hk w. unfold mbind, M_bind. specialize (Hm w).
  destruct (m w) as [[a | e] w1]; cbn in *; [| exact Hm].
  eapply grows_trans; [exact Hm | apply Hk].
Qed.

Lemma keeps_try_except {A} (body : M A) handler :
  keeps body -> (forall e, keeps (handler e)) ->
  keeps (try_except body handler).
Proof.
  intros Hm Hk w. unfold try_except. specialize (Hm w).
  destruct (body w) as [[a | e] w1]; cbn in *; [exact Hm |].
  eapply grows_trans; [exact Hm | apply Hk].
Qed.

Lemma keeps_transaction {A} (body : M A) :
  keeps body -> keeps (transaction body).
Proof.
  intros Hm w. unfold transaction. specialize (Hm w).
  destruct (body w) as [[a | e] w1]; cbn in *;
    [exact Hm | apply grows_refl].
Qed.

Lemma keeps_execute st write :
  (forall d, extends_db d (write d)) -> keeps (execute st write).
Proof.
  intros Hwrite w. unfold execute.
  destruct (failing w st); cbn; [apply grows_refl |].
  split; [apply Hwrite |].
  split; [exists []; now rewrite app_nil_r | reflexivity].
Qed.

Lemma keeps_add_task t : keeps (add_task t).
Proof.
  intros w. unfold add_task. cbn.
  split; [apply extends_db_refl |]. split; [eauto | reflexivity].
Qed.

(** Every write of the handler appends a row or raises a count. *)
Ltac appends :=
  intros d; repeat split; cbn;
  try (exists []; now rewrite app_nil_r); eauto.

Lemma insert_content_extends r d : extends_db d (Db.insert_content r d).
Proof. revert d. appends. Qed.

Lemma insert_audit_log_extends r d : extends_db d (Db.insert_audit_log r d).
Proof. revert d. appends. Qed.

Lemma insert_moderation_queue_extends r d :
  extends_db d (Db.insert_moderation_queue r d).
Proof. revert d. appends. Qed.

Lemma insert_user_notifications_extends r d :
  extends_db d (Db.insert_user_notifications r d).
Proof. revert d. appends. Qed.

Lemma insert_model_metrics_extends r d :
  extends_db d (Db.insert_model_metrics r d).
Proof. revert d. appends. Qed.

Lemma upsert_user_violations_extends author_id violation_type d :
  extends_db d (Db.upsert_user_violations author_id violation_type d).
Proof.
  repeat split; cbn; try (exists []; now rewrite app_nil_r).
  intros key n Hkey.
  destruct (decide (key = (author_id, violation_type))) as [-> | Hne].
  - rewrite Hkey. rewrite lookup_insert_eq. exists (n + 1)%nat.
    split; [reflexivity | lia].
  - destruct (Db.user_violations d !! (author_id, violation_type));
      rewrite lookup_insert_ne by congruence; eauto.
Qed.

Lemma keeps_apply_business_logic content_id submission classification :
  keeps (apply_business_logic content_id submission classification).
Proof.
  unfold apply_business_logic, add_to_moderation_queue, notify_user,
    increment_violation_counter.
  repeat match goal with
  | |- keeps (if ?b then _ else _) => destruct b
  | |- keeps (_ ≫= _) => apply keeps_bind; [| intros ?]
  | |- keeps (mret _) => apply keeps_ret
  | |- keeps (execute _ _) => apply keeps_execute; intros ?
  | |- extends_db _ (Db.insert_moderation_queue _ _) =>
      apply insert_moderation_queue_extends
  | |- extends_db _ (Db.insert_user_notifications _ _) =>
      apply insert_user_notifications_extends
  | |- extends_db _ (Db.upsert_user_violations _ _ _) =>
      apply upsert_user_violations_extends
  end.
Qed.

Lemma keeps_store_content content_id submission classification action :
  keeps (store_content content_id submission classification action).
Proof.
  unfold store_content. apply keeps_transaction, keeps_bind.
  - apply keeps_execute. intros d. apply insert_content_extends.
  - intros _. apply keeps_execute. intros d. apply insert_audit_log_extends.
Qed.

Lemma keeps_log_error content_id error submission :
  keeps (log_error content_id error submission).
Proof.
  unfold log_error. apply keeps_try_except.
  - apply keeps_execute. intros d. apply insert_audit_log_extends.
  - intros e. apply keeps_ret.
Qed.

(** X18. A request never removes or rewrites anything, whether it
    succeeds or fails and whatever the storage layer does: afterwards
    every table starts with the rows it had, no violation count is lower
    or gone, and the tasks scheduled before are still scheduled. *)
Theorem request_only_appends classifier content_id submission w :
  let w' := snd (submit_content classifier content_id submission w) in
  (exists l, Db.content (db w') = Db.content (db w) ++ l) /\
  (exists l, Db.audit_log (db w') = Db.audit_log (db w) ++ l) /\
  (exists l, Db.moderation_queue (db w') = Db.moderation_queue (db w) ++ l) /\
  (exists l,
     Db.user_notifications (db w') = Db.user_notifications (db w) ++ l) /\
  (exists l, Db.model_metrics (db w') = Db.model_metrics (db w) ++ l) /\
  (forall key n,
     Db.user_violations (db w) !! key = Some n ->
     exists m, Db.user_violations (db w') !! key = Some m /\ (n <= m)%nat) /\
  (exists l, background_tasks w' = background_tasks w ++ l).
Proof.
  cbv zeta.
  assert (Hkeeps : keeps (submit_content classifier content_id submission)).
  { unfold submit_content. apply keeps_try_except.
    - apply keeps_bind; [apply keeps_apply_business_logic | intros action].
      apply keeps_bind; [apply keeps_store_content | intros _].
      apply keeps_bind;
        [destruct (String.eqb _ _); [apply keeps_add_task | apply keeps_ret]
        | intros _].
      apply keeps_bind; [| intros _; apply keeps_ret].
      apply keeps_execute. intros d. apply insert_model_metrics_extends.
    - intros e. apply keeps_bind; [apply keeps_log_error | intros _].
      apply keeps_raise. }
  destruct (Hkeeps w) as ((Ha & Hb & Hc & Hd & He & Hf) & Ht & _).
  repeat split; assumption.
Qed.

(** ** Violation counters *)

(** X19. Where the upsert does not fail, [n] violations of one type by
    one author raise that counter by [n], starting from 0 when there was
    none, and leave every other counter alone. *)
Theorem violations_are_counted author_id violation_type n w :
  failing w upsert_user_violations = None ->
  exists w',
    times n (increment_violation_counter author_id violation_type) w
    = (Ok (), w') /\
    default 0%nat (Db.user_violations (db w') !! (author_id, violation_type))
    = (default 0 (Db.user_violations (db w) !! (author_id, violation_type))
       + n)%nat /\
    (forall key,
       key <> (author_id, violation_type) ->
       Db.user_violations (db w') !! key = Db.user_violations (db w) !! key) /\
    ((0 < n)%nat ->
     is_Some (Db.user_violations (db w') !! (author_id, violation_type))).
Proof.
  revert w. induction n as [| n IH]; intros w Hok; cbn.
  - exists w. repeat split; [lia | intros; lia].
  - unfold mbind, M_bind, increment_violation_counter, execute at 1.
    rewrite Hok.
    destruct (IH (with_db (Db.upsert_user_violations author_id violation_type)
                    w) Hok)
      as (w' & Hrun & Hcount & Hother & Hsome).
    exists w'. split; [exact Hrun |]. split; [| split].
    + rewrite Hcount. cbn [with_db db].
      rewrite upsert_user_violations_count. cbn. lia.
    + intros key Hkey. rewrite (Hother key Hkey). cbn.
      destruct (Db.user_violations (db w) !! (author_id, violation_type));
        now rewrite lookup_insert_ne by congruence.
    + intros _. destruct n as [| n]; [| apply Hsome; lia].
      cbn in Hrun. injection Hrun as <-. cbn [with_db db].
      rewrite upsert_user_violations_count. eauto.
Qed.

Lemma three_violations_count_three :
  failing healthy upsert_user_violations = None /\
  exists w',
    times 3 (increment_violation_counter "u1" "spam") healthy = (Ok (), w') /\
    Db.user_violations (db w') !! ("u1", "spam") = Some 3%nat /\
    Db.user_violations (db w') !! ("u1", "toxic") = None.
Proof.
  split; [reflexivity |].
  destruct (violations_are_counted "u1" "spam" 3 healthy eq_refl)
    as (w' & Hrun & _).
  exists w'. split; [exact Hrun |].
  vm_compute in Hrun. injection Hrun as <-. split; reflexivity.
Defined.

(** ** Request validation *)

Section Strip.

Import Validation.

Lemma lstrip_head l c t : lstrip l = c :: t -> isspace c = false.
Proof.
  induction l as [| a l IH]; cbn; [discriminate |].
  destruct (isspace a) eqn:E; [exact IH |]. now intros [= <- _].
Qed.

Lemma lstrip_length l : (length (lstrip l) <= length l)%nat.
Proof.
  induction l as [| a l IH]; cbn; [lia |]. destruct (isspace a); cbn; lia.
Qed.

Lemma lstrip_nil l : lstrip l = [] <-> all_space l = true.
Proof.
  induction l as [| a l IH]; cbn; [easy |].
  destruct (isspace a); [exact IH | easy].
Qed.

Lemma lstrip_fixed c t : isspace c = false -> lstrip (c :: t) = c :: t.
Proof. intros H. cbn. now rewrite H. Qed.

(** White space in front of a character that is none is all [lstrip]
    removes. *)
Lemma lstrip_before l c t :
  isspace c = false -> lstrip (l ++ c :: t) = lstrip l ++ c :: t.
Proof.
  intros H. induction l as [| a l IH]; cbn; [now rewrite H |].
  destruct (isspace a); [exact IH | reflexivity].
Qed.

Lemma rstrip_cons c t : isspace c = false -> rstrip (c :: t) = c :: rstrip t.
Proof.
  intros H. unfold rstrip. cbn [rev].
  rewrite lstrip_before by exact H.
  now rewrite rev_app_distr.
Qed.

Lemma rstrip_length l : (length (rstrip l) <= length l)%nat.
Proof.
  unfold rstrip. rewrite length_rev.
  etransitivity; [apply lstrip_length | now rewrite length_rev].
Qed.

Lemma rstrip_last l c : last (rstrip l) = Some c -> isspace c = false.
Proof.
  unfold rstrip. destruct (lstrip (rev l)) as [| a t] eqn:E; [discriminate |].
  cbn [rev]. rewrite last_snoc. intros [= <-]. exact (lstrip_head _ _ _ E).
Qed.

Lemma rstrip_idemp l : rstrip (rstrip l) = rstrip l.
Proof.
  unfold rstrip. rewrite rev_involutive. f_equal.
  destruct (lstrip (rev l)) as [| a t] eqn:E; [reflexivity |].
  apply lstrip_fixed. exact (lstrip_head _ _ _ E).
Qed.

(** The two ends of a text after [strip], on lists of characters. *)
Lemma strip_cases l :
  (lstrip l = [] /\ rstrip (lstrip l) = [])
  \/ exists c t,
       lstrip l = c :: t /\ isspace c = false /\
       rstrip (lstrip l) = c :: rstrip t.
Proof.
  destruct (lstrip l) as [| c t] eqn:E; [now left |].
  right. exists c, t. pose proof (lstrip_head _ _ _ E) as Hc.
  repeat split; [exact Hc | now apply rstrip_cons].
Qed.

Lemma length_string_of_list l :
  String.length (string_of_list_ascii l) = length l.
Proof. induction l as [| c l IH]; cbn; [reflexivity | now rewrite IH]. Qed.

Lemma length_list_of_string s :
  length (list_ascii_of_string s) = String.length s.
Proof. induction s as [| c s IH]; cbn; [reflexivity | now rewrite IH]. Qed.

Lemma strip_trimmed s : trimmed (strip s).
Proof.
  unfold trimmed, strip. rewrite list_ascii_of_string_of_list_ascii.
  destruct (strip_cases (list_ascii_of_string s))
    as [[_ ->] | (c & t & _ & Hc & ->)].
  - split; [discriminate | discriminate].
  - split; [now intros ? ? [= <- _] |].
    intros d. rewrite <- (rstrip_cons c t Hc). apply rstrip_last.
Qed.

Lemma strip_length s : (len (strip s) <= len s)%nat.
Proof.
  unfold strip, len. rewrite length_string_of_list.
  etransitivity; [apply rstrip_length |].
  etransitivity; [apply lstrip_length | now rewrite length_list_of_string].
Qed.

Lemma strip_idemp s : strip (strip s) = strip s.
Proof.
  unfold strip. rewrite list_ascii_of_string_of_list_ascii. f_equal.
  destruct (strip_cases (list_ascii_of_string s))
    as [[_ ->] | (c & t & _ & Hc & ->)]; [reflexivity |].
  rewrite (lstrip_fixed c _ Hc), (rstrip_cons c _ Hc). f_equal.
  apply rstrip_idemp.
Qed.

(** [strip] gives the empty text exactly for texts of white space. *)
Lemma strip_empty s :
  strip s = "" <-> all_space (list_ascii_of_string s) = true.
Proof.
  unfold strip. rewrite <- lstrip_nil.
  destruct (strip_cases (list_ascii_of_string s))
    as [[E ->] | (c & t & E & _ & ->)]; rewrite E; cbn; easy.
Qed.

Lemma str_isspace_spec s :
  (len s =? 0)%nat || str_isspace s = all_space (list_ascii_of_string s).
Proof. destruct s; reflexivity. Qed.

(** What [validate_author] returns when it accepts. *)
Lemma validate_author_Some v author :
  validate_author v = Some author ->
  author = strip v /\ author <> "" /\ trimmed author /\
  (len author <= len v)%nat.
Proof.
  unfold validate_author. rewrite str_isspace_spec.
  destruct (all_space (list_ascii_of_string v)) eqn:E; [discriminate |].
  intros [= <-].
  repeat split; try apply strip_trimmed; try apply strip_length.
  rewrite strip_empty, E. discriminate.
Qed.

(** X20. [validate_author] rejects exactly the author ids that are empty
    or all white space; an id it accepts comes back without the white
    space at its ends, not empty and no longer than it was, and is
    accepted unchanged when validated again. *)
Theorem validate_author_trims v :
  (validate_author v = None
   <-> all_space (list_ascii_of_string v) = true) /\
  (forall author,
     validate_author v = Some author ->
     author = strip v /\ author <> "" /\ trimmed author /\
     (len author <= len v)%nat /\
     validate_author author = Some author).
Proof.
  split.
  - unfold validate_author. rewrite str_isspace_spec.
    now destruct (all_space (list_ascii_of_string v)).
  - intros author Hv.
    destruct (validate_author_Some v author Hv) as (-> & Hne & Htrim & Hlen).
    split; [reflexivity |]. split; [exact Hne |].
    split; [exact Htrim |]. split; [exact Hlen |].
    unfold validate_author. rewrite str_isspace_spec.
    destruct (all_space (list_ascii_of_string (strip v))) eqn:E';
      [| now rewrite strip_idemp].
    apply strip_empty in E'. rewrite strip_idemp in E'. contradiction.
Qed.

(** X21. A submission that passes validation has an author id of 1 to
    100 characters and a content of at most 5000, both without white
    space at their ends, and a platform of at most 50 characters; the
    content may be empty, since its minimum length is checked before the
    white space is removed: a content of 1 to 5000 white space
    characters is accepted and becomes the empty text. *)
Theorem validated_submission content author_id platform metadata :
  (forall submission,
     ContentSubmission content author_id platform metadata = Some submission ->
     ContentSubmission.content submission = strip content /\
     trimmed (ContentSubmission.content submission) /\
     (len (ContentSubmission.content submission) <= 5000)%nat /\
     trimmed (ContentSubmission.author_id submission) /\
     (1 <= len (ContentSubmission.author_id submission) <= 100)%nat /\
     ContentSubmission.platform submission = platform /\
     (len platform <= 50)%nat) /\
  (all_space (list_ascii_of_string content) = true ->
   (1 <= len content <= 5000)%nat ->
   (1 <= len author_id <= 100)%nat ->
   all_space (list_ascii_of_string author_id) = false ->
   (len platform <= 50)%nat ->
   exists submission,
     ContentSubmission content author_id platform metadata = Some submission /\
     ContentSubmission.content submission = "").
Proof.
  unfold ContentSubmission, length_within, sanitize_content. split.
  - intros submission.
    destruct (Nat.leb_spec 1 (len content)); [| discriminate].
    destruct (Nat.leb_spec (len content) 5000); [| discriminate].
    destruct (Nat.leb_spec 1 (len author_id)); [| discriminate].
    destruct (Nat.leb_spec (len author_id) 100); [| discriminate].
    destruct (Nat.leb_spec (len platform) 50);
      [| now rewrite andb_false_r].
    cbn.
    destruct (validate_author author_id) as [author |] eqn:E;
      [| discriminate].
    intros [= <-]. cbn.
    destruct (validate_author_Some author_id author E)
      as (-> & Hne & Htrim & Hlen).
    pose proof (strip_length content). unfold len in *.
    split; [reflexivity |]. split; [apply strip_trimmed |].
    split; [lia |]. split; [apply strip_trimmed |].
    split; [| split; [reflexivity | lia]].
    split; [| lia].
    destruct (strip author_id); [contradiction | cbn; lia].
  - intros Hspace [? ?] [? ?] Hauthor ?.
    rewrite !(proj2 (Nat.leb_le _ _)) by lia. cbn.
    unfold validate_author. rewrite str_isspace_spec, Hauthor.
    eexists. split; [reflexivity |]. cbn. now apply strip_empty.
Qed.

(** Three blanks as content, from the author " u1 ". *)
Lemma blank_content_is_accepted :
  (all_space (list_ascii_of_string "   ") = true /\
   (1 <= len "   " <= 5000)%nat /\
   (1 <= len " u1 " <= 100)%nat /\
   all_space (list_ascii_of_string " u1 ") = false /\
   (len "web" <= 50)%nat) /\
  exists submission,
    ContentSubmission "   " " u1 " "web" ∅ = Some submission /\
    ContentSubmission.content submission = "" /\
    ContentSubmission.author_id submission = "u1".
Proof.
  assert (Hc : (1 <= len "   " <= 5000)%nat) by (cbn; lia).
  assert (Ha : (1 <= len " u1 " <= 100)%nat) by (cbn; lia).
  assert (Hp : (len "web" <= 50)%nat) by (cbn; lia).
  split; [repeat split; first [reflexivity | apply Hc | apply Ha | exact Hp] |].
  destruct (proj2 (validated_submission "   " " u1 " "web" ∅)
              eq_refl Hc Ha eq_refl Hp)
    as (submission & Hrun & Hcontent).
  exists submission. split; [exact Hrun |]. split; [exact Hcontent |].
  vm_compute in Hrun. injection Hrun as <-. reflexivity.
Defined.

End Strip.

(** * Part V: properties of the publisher *)

Section Publisher.

Import Social.

(** The results and what the calls leave behind, in the four
    configurations. *)
Lemma post_content_with_cases {L}
    (fb tw : string -> attempt (gmap string value) * list L) self content :
  post_content_with fb tw self content
  = (match facebook_enabled self, twitter_enabled self with
     | true, true =>
         [ ("facebook", settled (fst (fb content)));
           ("twitter", settled (fst (tw content))) ]
     | true, false =>
         [ ("twitter", not_configured "Twitter");
           ("facebook", settled (fst (fb content))) ]
     | false, true =>
         [ ("facebook", not_configured "Facebook");
           ("twitter", settled (fst (tw content))) ]
     | false, false =>
         [ ("facebook", not_configured "Facebook");
           ("twitter", not_configured "Twitter") ]
     end,
     (if facebook_enabled self then snd (fb content) else [])
     ++ (if twitter_enabled self then snd (tw content) else [])).
Proof.
  unfold post_content_with.
  destruct (facebook_enabled self), (twitter_enabled self); cbn;
    try destruct (fb content) as [[r | f] l];
    try destruct (tw content) as [[r' | f'] l']; cbn;
    rewrite ?app_nil_r; reflexivity.
Qed.

(** X22. [post_content] always answers with exactly one entry for
    'facebook' and one for 'twitter', whatever is configured and whatever
    the platform methods do.  The keys are in this order, except when
    Facebook alone is enabled: then 'twitter' (set at once) comes before
    'facebook' (set after the call). *)
Theorem post_content_keys {L}
    (fb tw : string -> attempt (gmap string value) * list L) self content :
  map fst (fst (post_content_with fb tw self content))
  = if facebook_enabled self && negb (twitter_enabled self)
    then ["twitter"; "facebook"]
    else ["facebook"; "twitter"].
Proof.
  rewrite post_content_with_cases.
  now destruct (facebook_enabled self), (twitter_enabled self).
Qed.

(** X23. Each platform gets its own result: the entry of an enabled
    platform is what its method returned (or the dict made of the
    exception it raised), also when the other platform is disabled, and
    the entry of a disabled platform says 'not configured'.  A disabled
    platform's method is not called: what the call leaves behind comes
    from the enabled methods only. *)
Theorem post_content_entries {L}
    (fb tw : string -> attempt (gmap string value) * list L) self content :
  let results := fst (post_content_with fb tw self content) in
  getitem "facebook" results
  = Some (if facebook_enabled self then settled (fst (fb content))
          else not_configured "Facebook") /\
  getitem "twitter" results
  = Some (if twitter_enabled self then settled (fst (tw content))
          else not_configured "Twitter") /\
  (forall x,
     x ∈ snd (post_content_with fb tw self content)
     <-> (facebook_enabled self = true /\ x ∈ snd (fb content))
         \/ (twitter_enabled self = true /\ x ∈ snd (tw content))).
Proof.
  cbv zeta. rewrite post_content_with_cases. cbn [fst snd].
  split; [| split].
  - now destruct (facebook_enabled self), (twitter_enabled self).
  - now destruct (facebook_enabled self), (twitter_enabled self).
  - intros x. rewrite elem_of_app.
    destruct (facebook_enabled self), (twitter_enabled self);
      rewrite ?elem_of_nil; intuition discriminate.
Qed.





Lemma length_append a b :
  String.length (a +:+ b) = (String.length a + String.length b)%nat.
Proof.
  induction a as [| c a IH]; [reflexivity |].
  change (String c a +:+ b) with (String c (a +:+ b)). cbn. now rewrite IH.
Qed.

Lemma length_prefix n s : String.length (prefix n s) = Nat.min n (String.length s).
Proof.
  unfold prefix. revert s. induction n as [| n IH]; intros [| c s]; cbn;
    try reflexivity.
  now rewrite IH.
Qed.

(** X25. The text sent to Twitter has at most 280 characters: a content
    of at most 280 characters is sent as it is, a longer one is cut to
    its first 277 characters followed by three dots, 280 in all. *)
Theorem tweet_fits content :
  (len (tweet content) <= 280)%nat /\
  ((len content <= 280)%nat -> tweet content = content) /\
  ((280 < len content)%nat ->
   tweet content = prefix 277 content +:+ "..." /\
   len (tweet content) = 280%nat /\
   len (prefix 277 content) = 277%nat) /\
  (forall net self request,
     request ∈ snd (_post_to_twitter net self content) ->
     json request !! "text" = Some (PyStr (tweet content))).
Proof.
  unfold tweet, len.
  destruct (Nat.ltb_spec 280 (String.length content)) as [Hlong | Hshort].
  - rewrite length_append, length_prefix. cbn [String.length].
    repeat split; try lia.
    intros net self request. unfold _post_to_twitter, len.
    rewrite (proj2 (Nat.ltb_lt _ _) Hlong).
    destruct (_get_twitter_oauth_headers net _ _); cbn;
      [| intros H; now apply elem_of_nil in H].
    intros H. apply list_elem_of_singleton in H. now subst.
  - repeat split; try lia.
    intros net self request. unfold _post_to_twitter, len.
    rewrite (proj2 (Nat.ltb_ge _ _) Hshort).
    destruct (_get_twitter_oauth_headers net _ _); cbn;
      [| intros H; now apply elem_of_nil in H].
    intros H. apply list_elem_of_singleton in H. now subst.
Qed.

(** X26. A poster contacts only the platforms it is enabled for, each at
    most once, and Twitter only with OAuth headers; a poster built by
    [__init__] is enabled for Facebook only with a non-empty token and
    for Twitter only with four non-empty credentials, so with a missing
    credential no request goes to Twitter. *)
Theorem only_enabled_platforms_are_contacted net content
    token api_key api_secret access_token access_secret :
  let self := init token api_key api_secret access_token access_secret in
  let requests := snd (post_content net self content) in
  (facebook_enabled self = true
   <-> exists s, token = Some s /\ s <> "") /\
  (twitter_enabled self = true
   <-> exists a b c d,
         api_key = Some a /\ api_secret = Some b /\
         access_token = Some c /\ access_secret = Some d /\
         a <> "" /\ b <> "" /\ c <> "" /\ d <> "") /\
  (length requests <= 2)%nat /\
  (forall request,
     request ∈ requests ->
     (url request = "https://graph.facebook.com/v18.0/me/feed" /\
      facebook_enabled self = true /\
      params request !! "access_token" = Some (of_option token))
     \/ (url request = "https://api.twitter.com/2/tweets" /\
         twitter_enabled self = true /\
         exists oauth,
           _get_twitter_oauth_headers net "https://api.twitter.com/2/tweets"
             "POST" = Done oauth)) /\
  (facebook_enabled self = false ->
   forall request,
     request ∈ requests ->
     url request <> "https://graph.facebook.com/v18.0/me/feed") /\
  (twitter_enabled self = false ->
   forall request,
     request ∈ requests -> url request <> "https://api.twitter.com/2/tweets").
Proof.
  cbv zeta.
  assert (Htruthy : forall o, truthy o = true <-> exists s, o = Some s /\ s <> "").
  { intros [s |]; cbn.
    - rewrite negb_true_iff. split.
      + intros H. exists s. split; [reflexivity |].
        intros ->. discriminate H.
      + intros (s' & [= <-] & Hne).
        destruct (String.eqb_spec s ""); [contradiction | reflexivity].
    - split; [discriminate | intros (s & [=] & _)]. }
  split; [apply Htruthy |]. split.
  { cbn [init twitter_enabled forallb map snd].
    rewrite !andb_true_iff, !Htruthy. split.
    - intros ((a & -> & ?) & (b & -> & ?) & (c & -> & ?) & (d & -> & ?) & _).
      exists a, b, c, d. tauto.
    - intros (a & b & c & d & -> & -> & -> & -> & ? & ? & ? & ?).
      repeat split; eauto. }
  unfold post_content. rewrite post_content_with_cases. cbn [snd].
  set (self := init token api_key api_secret access_token access_secret).
  unfold _post_to_facebook, _post_to_twitter.
  destruct (facebook_enabled self), (twitter_enabled self);
    destruct (_get_twitter_oauth_headers net _ _) as [oauth | f];
    cbn [snd app length];
    (split; [lia |]); (split; [| split]);
    try discriminate;
    intros; 
    repeat match goal with
    | H : _ ∈ [] |- _ => now apply elem_of_nil in H
    | H : _ ∈ _ :: _ |- _ => apply elem_of_cons in H as [-> | H]
    end;
    cbn; try discriminate; eauto 8.
Qed.

(** X27. The mock poster reports both platforms as posted and records
    exactly one post for each, the one for Twitter with the text cut to
    280 characters.  The id of a post is 'fb_' or 'tw_' followed by the
    hash of the posted text and of the clock reading of that call, and
    the id an entry reports is the id recorded with the post. *)
Theorem mock_posts_to_both hash facebook_clock twitter_clock content :
  let results :=
    fst (Mock.post_content hash facebook_clock twitter_clock content) in
  let posted_content :=
    snd (Mock.post_content hash facebook_clock twitter_clock content) in
  map fst results = ["facebook"; "twitter"] /\
  (forall platform entry,
     getitem platform results = Some entry ->
     entry !! "success" = Some (PyBool true) /\
     entry !! "platform" = Some (PyStr platform) /\
     exists posted post_id,
       entry !! "post_id" = Some (PyStr post_id) /\
       (platform, posted, post_id) ∈ posted_content) /\
  length posted_content = 2%nat /\
  (forall post,
     post ∈ posted_content
     <-> post
         = ("facebook", content,
            "fb_"
            +:+ pretty
                  (hash (content
                         +:+ Mock.str_datetime (fst facebook_clock))))
         \/ post
            = ("twitter", tweet content,
               "tw_"
               +:+ pretty
                     (hash (tweet content
                            +:+ Mock.str_datetime (fst twitter_clock))))) /\
  (len (tweet content) <= 280)%nat.
Proof.
  cbv zeta. unfold Mock.post_content. rewrite post_content_with_cases.
  cbn [Mock.init facebook_enabled twitter_enabled fst snd
       Mock._post_to_facebook Mock._post_to_twitter settled app map].
  fold (tweet content).
  split; [reflexivity |]. split; [| split; [reflexivity | split]].
  - intros platform entry. cbn [getitem].
    destruct (String.eqb "facebook" platform) eqn:Efb.
    + apply String.eqb_eq in Efb as <-. intros [= <-].
      split; [vm_compute; reflexivity |].
      split; [vm_compute; reflexivity |].
      eexists _, _. split; [vm_compute; reflexivity |].
      apply list_elem_of_here.
    + destruct (String.eqb "twitter" platform) eqn:Etw; [| discriminate].
      apply String.eqb_eq in Etw as <-. intros [= <-].
      split; [vm_compute; reflexivity |].
      split; [vm_compute; reflexivity |].
      eexists _, _. split; [vm_compute; reflexivity |].
      apply list_elem_of_further, list_elem_of_here.
  - intros post. rewrite !elem_of_cons, elem_of_nil. tauto.
  - unfold tweet, len.
    destruct (Nat.ltb_spec 280 (String.length content)); [| lia].
    rewrite length_append, length_prefix. cbn [String.length]. lia.
Qed.

(** X28. [post_to_social_media] makes the same requests whether or not
    its result can be recorded: when the insert succeeds the table gets
    one row that lists both platforms with their results, and when it
    fails the table is unchanged although the posts were attempted. *)
Theorem publishing_is_recorded_when_possible
    net insert_fails content_id content social_poster social_media_posts :
  let after :=
    post_to_social_media net insert_fails content_id content social_poster
      social_media_posts in
  snd after = snd (post_content net social_poster content) /\
  (insert_fails = None ->
   exists row,
     fst after = social_media_posts ++ [row] /\
     Social.content_id row = content_id /\
     results row = fst (post_content net social_poster content) /\
     platforms row
     = (if facebook_enabled social_poster
           && negb (twitter_enabled social_poster)
        then ["twitter"; "facebook"] else ["facebook"; "twitter"])) /\
  (insert_fails <> None -> fst after = social_media_posts).
Proof.
  cbv zeta. unfold post_to_social_media.
  assert (Hkeys :
    map fst (fst (post_content net social_poster content))
    = if facebook_enabled social_poster && negb (twitter_enabled social_poster)
      then ["twitter"; "facebook"] else ["facebook"; "twitter"]).
  { unfold post_content. rewrite post_content_with_cases.
    now destruct (facebook_enabled social_poster),
      (twitter_enabled social_poster). }
  destruct (post_content net social_poster content) as [results requests].
  destruct insert_fails as [msg |]; cbn [fst snd] in *.
  - split; [reflexivity |]. split; [discriminate | reflexivity].
  - split; [reflexivity |]. split; [| intros H; now contradiction H].
    intros _. eexists. split; [reflexivity |]. cbn.
    split; [reflexivity |]. split; [reflexivity | exact Hkeys].
Qed.

End Publisher.
